(** * vpy.types: operators, typed properties and name-keyed collections

    A shallow embedding of [src/vpy/types.py] (Pymixer's scripting API) and
    the properties of its operator call protocol, its typed properties and
    its attribute-style name resolution.

    Python objects are modelled as records (or, where attributes are
    attached dynamically, as instance dictionaries), Python dictionaries as
    [gmap string _], Python [int] as [Z], Python [float] as the kernel's
    IEEE 754 binary64 [float], and raised exceptions as the [Raise] case of
    [result]. *)

From Stdlib Require Import ZArith String List Floats Lia Bool.
From stdpp Require Import gmap strings.
Import ListNotations.

Local Open Scope Z_scope.
Local Open Scope string_scope.

(** ** Python values, exceptions and results *)

(** The dynamically typed values that operator hooks receive and return. *)
Inductive value : Type :=
  | VNone
  | VBool (b : bool)
  | VInt (z : Z)
  | VFloat (f : float)
  | VStr (s : string).

(** The exceptions that the modelled code raises or lets through. [Fault]
    stands for any exception raised by user code in a hook. *)
Inductive exn : Type :=
  | AttributeError (msg : string)
  | IndexError
  | RecursionError
  | Fault (msg : string).

Inductive result (A : Type) : Type :=
  | Ret (a : A)
  | Raise (e : exn).
Arguments Ret {A} a.
Arguments Raise {A} e.

(** Truth value testing, as done by [if poll:]. *)
Definition truthy (v : value) : bool :=
  match v with
  | VNone => false
  | VBool b => b
  | VInt z => negb (Z.eqb z 0)
  | VFloat f => negb (PrimFloat.eqb f 0%float)
  | VStr s => negb (String.eqb s "")
  end.

(** [v == s] for a [str] literal [s]: only a [str] with the same characters
    compares equal to it. *)
Definition py_eq_str (v : value) (s : string) : bool :=
  match v with
  | VStr s' => String.eqb s' s
  | _ => false
  end.

(** [v in t] for a tuple [t] of [str] literals. *)
Definition py_in_strs (v : value) (t : list string) : bool :=
  existsb (py_eq_str v) t.

(** Subscription [l[i]] of a Python sequence: indices [0 .. len-1] count
    from the front, [-len .. -1] from the back, anything else raises
    [IndexError]. *)
Definition py_index {A : Type} (l : list A) (i : Z) : result A :=
  let n := Z.of_nat (length l) in
  let pos := if Z.ltb i 0 then i + n else i in
  if Z.ltb pos 0 || Z.leb n pos then Raise IndexError
  else match nth_error l (Z.to_nat pos) with
       | Some a => Ret a
       | None => Raise IndexError
       end.

(** ** Numbers that properties hold *)

(** The numbers a bounded property holds: the comparison [<] that
    [IntProp.set] and [FloatProp.set] perform ([>] is [py_gt] below), the
    comparison [<=] in which bounds are stated, and the two infinities that
    [__init__] installs when a bound is not given. *)
Class PyNum (A : Type) : Type := {
  py_lt : A -> A -> bool;      (* x < y *)
  py_le : A -> A -> bool;      (* x <= y *)
  neg_inf : A;                 (* float("-inf") *)
  pos_inf : A                  (* float("inf") *)
}.

(** [x > y] *)
Definition py_gt {A : Type} `{PyNum A} (x y : A) : bool := py_lt y x.

(** What an [IntProp] holds: a Python [int], or one of the two float
    infinities that [IntProp.__init__] installs as default bounds.  Python
    compares an [int] with a float infinity exactly. *)
Inductive xint : Type :=
  | NegInf
  | Int (z : Z)
  | PosInf.

Definition xint_lt (x y : xint) : bool :=
  match x, y with
  | NegInf, NegInf => false
  | NegInf, _ => true
  | Int _, NegInf => false
  | Int a, Int b => Z.ltb a b
  | Int _, PosInf => true
  | PosInf, _ => false
  end.

Definition xint_le (x y : xint) : bool :=
  match x, y with
  | NegInf, _ => true
  | Int _, NegInf => false
  | Int a, Int b => Z.leb a b
  | Int _, PosInf => true
  | PosInf, PosInf => true
  | PosInf, _ => false
  end.

#[export] Instance xint_PyNum : PyNum xint :=
  {| py_lt := xint_lt; py_le := xint_le; neg_inf := NegInf; pos_inf := PosInf |}.

#[export] Instance float_PyNum : PyNum float :=
  {| py_lt := PrimFloat.ltb; py_le := PrimFloat.leb;
     neg_inf := neg_infinity; pos_inf := infinity |}.

(** ** Typed properties *)

(** [class Property]: the base [get] and [set], inherited unchanged by
    [BoolProp] and [StringProp]. *)
Module Property.
Record t (A : Type) : Type := mk {
  name : string;
  description : string;
  default : A;
  value : A
}.
Arguments mk {A}.
Arguments name {A}.
Arguments description {A}.
Arguments default {A}.
Arguments value {A}.

Definition get {A : Type} (self : t A) : A := value self.

Definition set {A : Type} (self : t A) (v : A) : t A :=
  mk (name self) (description self) (default self) v.
End Property.

Module BoolProp.
Definition t : Type := Property.t bool.
Definition __init__ (name description : string) (default : bool) : t :=
  Property.mk name description default default.
Definition get : t -> bool := Property.get.
Definition set : t -> bool -> t := Property.set.
End BoolProp.

Module StringProp.
(** The default of [default] is the integer [0], so the held value is any
    Python value. *)
Definition t : Type := Property.t value.
Definition __init__ (name description : string) (default : value) : t :=
  Property.mk name description default default.
Definition get : t -> value := Property.get.
Definition set : t -> value -> t := Property.set.
End StringProp.

(** [IntProp] and [FloatProp] have the same fields and the same [__init__]
    and [set] bodies; [NumProp] is that common text over the number type. *)
Module NumProp.
Record t (A : Type) : Type := mk {
  name : string;
  description : string;
  default : A;
  min : A;
  max : A;
  value : A
}.
Arguments mk {A}.
Arguments name {A}.
Arguments description {A}.
Arguments default {A}.
Arguments min {A}.
Arguments max {A}.
Arguments value {A}.

Section Methods.
Context {A : Type} `{PyNum A}.

Definition __init__ (name description : string) (default : A)
    (min max : option A) : t A :=
  mk name description default
     (match min with None => neg_inf | Some m => m end)
     (match max with None => pos_inf | Some m => m end)
     default.

(** Inherited from [Property]. *)
Definition get (self : t A) : A := value self.

Definition set (self : t A) (v : A) : t A :=
  let v := if py_lt v (min self) then min self else v in
  let v := if py_gt v (max self) then max self else v in
  mk (name self) (description self) (default self) (min self) (max self) v.
End Methods.
End NumProp.

Module IntProp.
Definition t : Type := NumProp.t xint.
Definition __init__ : string -> string -> xint -> option xint -> option xint -> t :=
  NumProp.__init__.
Definition get : t -> xint := NumProp.get.
Definition set : t -> xint -> t := NumProp.set.
End IntProp.

Module FloatProp.
Definition t : Type := NumProp.t float.
Definition __init__ : string -> string -> float -> option float -> option float -> t :=
  NumProp.__init__.
Definition get : t -> float := NumProp.get.
Definition set : t -> float -> t := NumProp.set.
End FloatProp.

(** An item of an enumeration is a tuple of strings [(id, label, ...)],
    declared [Tuple[str]]: its first component, the id that [get] reads
    with [[0]], always exists; the others are kept as a list. *)
Definition item : Type := string * list string.

Module EnumProp.
Record t : Type := mk {
  name : string;
  description : string;
  items : list item;
  idx : Z
}.

Definition __init__ (name description : string) (items : list item) : t :=
  mk name description items 0.

(** [return self.items[self.idx][0]] *)
Definition get (self : t) : result string :=
  match py_index (items self) (idx self) with
  | Ret it => Ret (fst it)
  | Raise e => Raise e
  end.

(** [self.idx = min(idx, len(self.items)-1)] *)
Definition set (self : t) (i : Z) : t :=
  mk (name self) (description self) (items self)
     (Z.min i (Z.of_nat (length (items self)) - 1)).
End EnumProp.

(** Any registered property, as stored in a [Dict[str, Property]]. *)
Inductive AnyProperty : Type :=
  | PBool (p : BoolProp.t)
  | PInt (p : IntProp.t)
  | PFloat (p : FloatProp.t)
  | PString (p : StringProp.t)
  | PEnum (p : EnumProp.t).

(** ** Attribute lookup *)

(** [Scene] and [PropCollection] define the same [__getattr__]:
<<
    def __getattr__(self, attr):
        if hasattr(self, attr):
            return getattr(self, attr)
        else:
            raise AttributeError(f"... has no attribute {attr}")
>>
    Python calls [__getattr__] when the normal lookup of [attr] on the
    instance fails with [AttributeError]; the builtins [hasattr] and
    [getattr] perform the whole lookup again, [__getattr__] included, and
    [hasattr] turns an [AttributeError] (and no other exception) into
    [False].  [depth] is the number of frames left before the interpreter
    raises [RecursionError]; entering [__getattr__] takes one. *)
Section DynamicLookup.
Context {Obj V : Type}.
(** The normal lookup, [object.__getattribute__]. *)
Variable lookup : Obj -> string -> option V.
(** The text of the [AttributeError] of this class. *)
Variable message : string -> string.

(** The builtin [hasattr], given the builtin [getattr]. *)
Definition hasattr (getattr : Obj -> string -> result V)
    (self : Obj) (attr : string) : result bool :=
  match getattr self attr with
  | Ret _ => Ret true
  | Raise (AttributeError _) => Ret false
  | Raise e => Raise e
  end.

(** The body of [__getattr__], given the builtin [getattr]. *)
Definition getattr_body (getattr : Obj -> string -> result V)
    (self : Obj) (attr : string) : result V :=
  match hasattr getattr self attr with
  | Ret true => getattr self attr
  | Ret false => Raise (AttributeError (message attr))
  | Raise e => Raise e
  end.

(** The builtin [getattr(self, attr)], which is also what the expression
    [self.attr] evaluates. *)
Fixpoint getattr (depth : nat) (self : Obj) (attr : string) : result V :=
  match lookup self attr with
  | Some v => Ret v
  | None =>
      match depth with
      | 0%nat => Raise RecursionError
      | S depth' => getattr_body (getattr depth') self attr
      end
  end.

Definition __getattr__ (depth : nat) (self : Obj) (attr : string) : result V :=
  match depth with
  | 0%nat => Raise RecursionError
  | S depth' => getattr_body (getattr depth') self attr
  end.
End DynamicLookup.

(** The normal lookup.  A class provides a name to its instances through
    a data descriptor, which wins over the instance dictionary
    ([__class__], [__dict__]), or otherwise (a method, the docstring), in
    which case an entry of the instance dictionary wins. *)
Inductive class_entry : Type :=
  | DataDescriptor
  | NonData.

(** The names that the interpreter provides to the instances of every
    class: the attributes of [object] and those it adds to each class.
    Which names these are depends on the interpreter. *)
Definition builtin_names : Type := string -> option class_entry.

Section ObjectLookup.
Context {V : Type}.
(** The names bound in the class body, all of them methods. *)
Variable methods : list string.
Variable builtin : builtin_names.
(** What a name found through the class evaluates to. *)
Variable from_class : string -> V.

Definition class_lookup (attr : string) : option class_entry :=
  if existsb (String.eqb attr) methods then Some NonData else builtin attr.

(** [object.__getattribute__], on an instance with dictionary [dict];
    [None] stands for its [AttributeError]. *)
Definition object_getattribute (dict : gmap string V) (attr : string) : option V :=
  match class_lookup attr with
  | Some DataDescriptor => Some (from_class attr)
  | Some NonData =>
      match dict !! attr with
      | Some v => Some v
      | None => Some (from_class attr)
      end
  | None => dict !! attr
  end.
End ObjectLookup.

Module PropCollection.
(** What an attribute of a collection evaluates to: the [_values]
    dictionary, a property attached under its name, or what the class
    provides under that name. *)
Inductive attr : Type :=
  | Values (d : gmap string AnyProperty)
  | Prop_ (p : AnyProperty)
  | FromClass (name : string).

Record t : Type := mk { __dict__ : gmap string attr }.

Definition __init__ : t := mk {[ "_values" := Values ∅ ]}.

Definition message (a : string) : string :=
  "PropCollection has no attribute " ++ a.

(** The class body binds two names. *)
Definition methods : list string := ["__init__"; "__getattr__"].

Definition lookup (builtin : builtin_names) (self : t) (a : string) : option attr :=
  object_getattribute methods builtin FromClass (__dict__ self) a.

Definition getattr (builtin : builtin_names) : nat -> t -> string -> result attr :=
  getattr (lookup builtin) message.

Definition __getattr__ (builtin : builtin_names) : nat -> t -> string -> result attr :=
  __getattr__ (lookup builtin) message.
End PropCollection.

Module Scene.
(** What an attribute of a scene evaluates to: one of the fields set by
    [__init__], a property collection attached under the name of its
    property group, or what the class provides under that name. *)
Inductive attr : Type :=
  | Bytes (b : string)
  | Float (f : float)
  | Bool (b : bool)
  | Coll (c : PropCollection.t)
  | FromClass (name : string).

Record t : Type := mk { __dict__ : gmap string attr }.

(** [now] is the reading of [time.time()], [date] the formatted
    [datetime.now()]. *)
Definition __init__ (now : float) (date : string) : t :=
  mk (<["is_dirty" := Bool false]>
      (<["is_saved" := Bool false]>
      (<["date" := Bytes date]>
      (<["time" := Float now]>
      (<["meta" := Bytes ""]> ∅))))).

Definition message (a : string) : string :=
  "Scene has no attribute " ++ a.

(** The class body binds two names. *)
Definition methods : list string := ["__init__"; "__getattr__"].

Definition lookup (builtin : builtin_names) (self : t) (a : string) : option attr :=
  object_getattribute methods builtin FromClass (__dict__ self) a.

Definition getattr (builtin : builtin_names) : nat -> t -> string -> result attr :=
  getattr (lookup builtin) message.

Definition __getattr__ (builtin : builtin_names) : nat -> t -> string -> result attr :=
  __getattr__ (lookup builtin) message.
End Scene.

(** ** Context *)

(** The pixels of the last render; never inspected here. *)
Definition ndarray : Type := list Z.

Module Context.
Record t : Type := mk {
  scene : option Scene.t;
  render_result : option ndarray;
  num_changes : Z;
  last_report : option (string * string);
  last_report_time : value
}.

Definition __init__ : t := mk None None 0 None (VInt 0).

Definition set_num_changes (n : Z) (c : t) : t :=
  mk (scene c) (render_result c) n (last_report c) (last_report_time c).

Definition set_last_report (r : string * string) (c : t) : t :=
  mk (scene c) (render_result c) (num_changes c) (Some r) (last_report_time c).

Definition set_last_report_time (v : value) (c : t) : t :=
  mk (scene c) (render_result c) (num_changes c) (last_report c) v.
End Context.

(** ** The world an operator call runs in *)

(** The two overridable methods of an operator. *)
Inductive hook : Type := Poll | Execute.

(** [vpy.context], the one live context, together with the record of the
    hooks entered so far (most recent last). *)
Record world : Type := mkWorld {
  context : Context.t;
  calls : list hook
}.

(** Computations that read and write the world and may raise. *)
Definition M (A : Type) : Type := world -> world * result A.

Definition ret {A : Type} (a : A) : M A := fun w => (w, Ret a).

Definition bind {A B : Type} (m : M A) (k : A -> M B) : M B :=
  fun w =>
    match m w with
    | (w', Ret a) => k a w'
    | (w', Raise e) => (w', Raise e)
    end.

(** [try: m  except: h], a bare [except] that catches everything. *)
Definition try_except {A : Type} (m : M A) (h : M A) : M A :=
  fun w =>
    match m w with
    | (w', Ret a) => (w', Ret a)
    | (w', Raise _) => h w'
    end.

Definition modify_context (f : Context.t -> Context.t) : M unit :=
  fun w => (mkWorld (f (context w)) (calls w), Ret tt).

Declare Scope py_scope.
Delimit Scope py_scope with py.
Notation "x <- c1 ;; c2" := (bind c1 (fun x => c2))
  (at level 100, c1 at next level, right associativity) : py_scope.
Notation "c1 ;; c2" := (bind c1 (fun _ => c2))
  (at level 100, right associativity) : py_scope.
Local Open Scope py_scope.

(** A method [poll] or [execute]: it receives the context and the call's
    arguments, may change the context, and returns a value or raises. *)
Definition method : Type :=
  Context.t -> list value -> gmap string value -> Context.t * result value.

(** Entering a hook: it runs on [vpy.context] and is recorded. *)
Definition call_hook (h : hook) (f : method)
    (args : list value) (kwargs : gmap string value) : M value :=
  fun w =>
    let (c, r) := f (context w) args kwargs in
    (mkWorld c (calls w ++ [h]), r).

(** ** Operators *)

Module Operator.
Record t : Type := mk {
  label : string;
  description : string;
  idname : string;
  min_args : option Z;
  max_args : option Z;
  kwargs_include : list string;
  kwargs_exclude : list string;
  kboard_shortcuts : list (string * bool * bool * bool);
  poll : method;
  execute : method
}.

(** [Operator.poll] and [Operator.execute] as the base class defines
    them. *)
Definition default_poll : method := fun c _ _ => (c, Ret (VBool true)).
Definition default_execute : method := fun c _ _ => (c, Ret (VStr "FINISHED")).

(** A subclass that sets only its names. *)
Definition plain (label description idname : string) : t :=
  mk label description idname None None [] [] [] default_poll default_execute.

(** [now] is the reading of [time.time()]. *)
Definition report (self : t) (now : float) (type msg : string) : M unit :=
  modify_context (Context.set_last_report (type, msg)) ;;
  modify_context (Context.set_last_report_time (VFloat now)).

(** The loop over [kwargs_include]; [Some v] when it returned [v] from
    the call, [None] when it ran to its end. *)
Fixpoint for_kwargs_include (self : t) (now : float) (l : list string)
    (kwargs : gmap string value) : M (option value) :=
  match l with
  | [] => ret None
  | arg :: l' =>
      match kwargs !! arg with
      | None =>
          report self now "ERROR"
            ("Must include kwarg " ++ arg ++ " in Operator " ++ idname self) ;;
          ret (Some (VStr "CANCELLED"))
      | Some _ => for_kwargs_include self now l' kwargs
      end
  end.

(** The loop over [kwargs_exclude]. *)
Fixpoint for_kwargs_exclude (self : t) (now : float) (l : list string)
    (kwargs : gmap string value) : M (option value) :=
  match l with
  | [] => ret None
  | arg :: l' =>
      match kwargs !! arg with
      | Some _ =>
          report self now "ERROR"
            ("Must exclude kwarg " ++ arg ++ " in Operator " ++ idname self) ;;
          ret (Some (VStr "CANCELLED"))
      | None => for_kwargs_exclude self now l' kwargs
      end
  end.

(** [len(args) < self.min_args], guarded by [is not None]. *)
Definition too_few (self : t) (args : list value) : bool :=
  match min_args self with
  | Some m => Z.ltb (Z.of_nat (length args)) m
  | None => false
  end.

Definition too_many (self : t) (args : list value) : bool :=
  match max_args self with
  | Some m => Z.ltb m (Z.of_nat (length args))
  | None => false
  end.

(** From [try: poll = self.poll(...)] to the end of [__call__]. *)
Definition poll_and_execute (self : t) (now : float)
    (args : list value) (kwargs : gmap string value) : M value :=
  p <- try_except (call_hook Poll (poll self) args kwargs)
                  (ret (VBool false)) ;;
  if truthy p then
    val <- call_hook Execute (execute self) args kwargs ;;
    if negb (py_in_strs val ["FINISHED"; "CANCELLED"]) then
      report self now "ERROR"
        ("Invalid return in Operator " ++ idname self ++ " call.") ;;
      ret (VStr "FINISHED")
    else
      (* the end of the function body is reached: no [return] *)
      ret VNone
  else
    report self now "ERROR" ("Poll in Operator " ++ idname self ++ " failed.") ;;
    ret (VStr "CANCELLED").

Definition __call__ (self : t) (now : float)
    (args : list value) (kwargs : gmap string value) : M value :=
  modify_context (fun c => Context.set_num_changes (Context.num_changes c + 1) c) ;;
  if too_few self args then
    report self now "ERROR" ("Too few arguments in Operator " ++ idname self) ;;
    ret (VStr "CANCELLED")
  else if too_many self args then
    report self now "ERROR" ("Too many arguments in Operator " ++ idname self) ;;
    ret (VStr "CANCELLED")
  else
    r <- for_kwargs_include self now (kwargs_include self) kwargs ;;
    match r with
    | Some v => ret v
    | None =>
        r <- for_kwargs_exclude self now (kwargs_exclude self) kwargs ;;
        match r with
        | Some v => ret v
        | None => poll_and_execute self now args kwargs
        end
    end.
End Operator.

Module OpCollection.
Record t : Type := mk { operators : gmap string Operator.t }.

Definition __init__ : t := mk ∅.

Definition __getattr__ (self : t) (attr : string) : result Operator.t :=
  match operators self !! attr with
  | Some op => Ret op
  | None => Raise (AttributeError ("OpCollection has no attribute " ++ attr))
  end.
End OpCollection.

Module OpsModule.
Record t : Type := mk { colls : gmap string OpCollection.t }.

Definition __init__ : t := mk ∅.

Definition __getattr__ (self : t) (attr : string) : result OpCollection.t :=
  match colls self !! attr with
  | Some c => Ret c
  | None => Raise (AttributeError ("OpsModule has no attribute " ++ attr))
  end.
End OpsModule.

(** ** Stating the call protocol *)

(** The context once [__call__] has counted the call: what [poll]
    receives. *)
Definition counted (c : Context.t) : Context.t :=
  Context.set_num_changes (Context.num_changes c + 1) c.

(** The context after [report("ERROR", msg)] at time [now]. *)
Definition reported (now : float) (msg : string) (c : Context.t) : Context.t :=
  Context.set_last_report_time (VFloat now)
    (Context.set_last_report ("ERROR", msg) c).

(** The call meets the operator's argument contracts: none of the four
    checks of [__call__] fires. *)
Definition valid_call (self : Operator.t)
    (args : list value) (kwargs : gmap string value) : Prop :=
  Operator.too_few self args = false /\
  Operator.too_many self args = false /\
  (forall a, In a (Operator.kwargs_include self) -> kwargs !! a <> None) /\
  (forall a, In a (Operator.kwargs_exclude self) -> kwargs !! a = None).

(** The call breaks one of the contracts: too few or too many positional
    arguments, a required keyword missing, or a forbidden keyword given. *)
Definition invalid_call (self : Operator.t)
    (args : list value) (kwargs : gmap string value) : Prop :=
  Operator.too_few self args = true \/
  Operator.too_many self args = true \/
  (exists a, In a (Operator.kwargs_include self) /\ kwargs !! a = None) \/
  (exists a, In a (Operator.kwargs_exclude self) /\ kwargs !! a <> None).

(** [poll], run on [c], raised or returned a false value. *)
Definition poll_fails (self : Operator.t) (c : Context.t)
    (args : list value) (kwargs : gmap string value) : Prop :=
  match snd (Operator.poll self c args kwargs) with
  | Ret v => truthy v = false
  | Raise _ => True
  end.

(** [poll], run on [c], returned a true value. *)
Definition poll_succeeds (self : Operator.t) (c : Context.t)
    (args : list value) (kwargs : gmap string value) : Prop :=
  exists v, snd (Operator.poll self c args kwargs) = Ret v /\ truthy v = true.

(** A method leaves the change counter as it found it. *)
Definition keeps_num_changes (f : method) : Prop :=
  forall c args kwargs,
    Context.num_changes (fst (f c args kwargs)) = Context.num_changes c.

(** ** The order on numbers, for stating bounds *)

(** What clamping needs of the comparisons.  [ordered x] says that [x]
    takes part in the order: every [xint] does, a [float] does unless it is
    a NaN. *)
Class PyNumLaws (A : Type) `{PyNum A} (ordered : A -> bool) : Prop := {
  le_ordered : forall x y, py_le x y = true -> ordered x = true /\ ordered y = true;
  le_refl : forall x, ordered x = true -> py_le x x = true;
  le_not_gt : forall x y, py_le x y = true -> py_lt y x = false;
  not_lt_le : forall x y,
    ordered x = true -> ordered y = true -> py_lt x y = false -> py_le y x = true;
  le_lt_trans : forall x y z, py_le x y = true -> py_lt y z = true -> py_lt x z = true;
  lt_le : forall x y, py_lt x y = true -> py_le x y = true
}.

(** A [float] is ordered unless it is a NaN. *)
Definition float_ordered (f : float) : bool := negb (is_nan f).


(** ** Names the interpreter provides *)

(** The interpreter's own names begin with two underscores. *)
Definition dunder_only (builtin : builtin_names) : Prop :=
  forall attr, builtin attr <> None -> String.prefix "__" attr = true.

(** ** gui_utils.kmod *)

Section Kmod.
(** pygame's constants for the six modifier keys. *)
Variables K_LCTRL K_RCTRL K_LSHIFT K_RSHIFT K_LALT K_RALT : Z.
(** [pygame.key.get_pressed()]: whether each key is held down. *)
Variable keys : Z -> bool.

(** [kmod(key, target_key, ctrl=False, shift=False, alt=False)] *)
Definition kmod (key target_key : Z) (ctrl shift alt : bool) : bool :=
  let ctrl_pressed := keys K_LCTRL || keys K_RCTRL in
  let shift_pressed := keys K_LSHIFT || keys K_RSHIFT in
  let alt_pressed := keys K_LALT || keys K_RALT in
  let meets_requires := true in
  let meets_requires :=
    if negb (Bool.eqb ctrl ctrl_pressed) then false else meets_requires in
  let meets_requires :=
    if negb (Bool.eqb shift shift_pressed) then false else meets_requires in
  let meets_requires :=
    if negb (Bool.eqb alt alt_pressed) then false else meets_requires in
  if meets_requires && Z.eqb key target_key then true else false.
End Kmod.

(** ** register.py *)

(** [l.pop()]: the list without its last element, [IndexError] on an empty
    list. *)
Definition list_pop {A : Type} (l : list A) : result (list A) :=
  match l with
  | [] => Raise IndexError
  | _ => Ret (removelast l)
  end.

Module register_py.
Section Loader.
(** What importing a module and running its [register()] may change,
    besides [sys.path]. *)
Context {U : Type}.

(** An imported module: its attribute [register], when it has one.
    [register()] runs on [sys.path] and on the rest of the state, and hands
    both back. *)
Record pymodule : Type := mkModule {
  register_attr : option (list string -> U -> list string * U * result unit)
}.

(** The interpreter state the loader works on: [sys.path], the state the
    modules act on, and the record of the module names whose [register()]
    was entered (most recent last). *)
Record interp : Type := mkInterp {
  sys_path : list string;
  user : U;
  registered : list string
}.

(** [os.path.isdir], [os.listdir], [os.path.splitext] and
    [importlib.import_module]; the last one searches [sys.path], may run the
    module's top-level code, which like [register()] may change [sys.path]
    and the rest of the state, and raises when there is no such module. *)
Variable isdir : string -> bool.
Variable listdir : string -> list string.
Variable splitext : string -> string * string.
Variable import_module :
  list string -> string -> U -> list string * U * result pymodule.

(** The body of the [try] in [register_module]. *)
Definition import_and_register (file : string) (st : interp) : interp * result unit :=
  let name := fst (splitext file) in
  match import_module (sys_path st) name (user st) with
  | (p, u, Raise e) => (mkInterp p u (registered st), Raise e)
  | (p, u, Ret m) =>
      match register_attr m with
      | None =>
          (mkInterp p u (registered st),
           Raise (AttributeError ("module " ++ name ++ " has no attribute register")))
      | Some f =>
          let '(p', u', r) := f p u in
          (mkInterp p' u' (registered st ++ [name])%list, r)
      end
  end.

Definition register_module (file : string) (st : interp) : interp * result unit :=
  match import_and_register file st with
  | (st', Raise (AttributeError _)) => (st', Ret tt)     (* except AttributeError: pass *)
  | (st', r) => (st', r)
  end.

(** [for f in os.listdir(d): register_module(f)] *)
Fixpoint for_files (files : list string) (st : interp) : interp * result unit :=
  match files with
  | [] => (st, Ret tt)
  | f :: files' =>
      match register_module f st with
      | (st', Ret _) => for_files files' st'
      | (st', Raise e) => (st', Raise e)
      end
  end.

Fixpoint register (dirs : list string) (st : interp) : interp * result unit :=
  match dirs with
  | [] => (st, Ret tt)
  | d :: dirs' =>
      if isdir d then
        (* sys.path.append(d) *)
        let st1 := mkInterp (sys_path st ++ [d])%list (user st) (registered st) in
        match for_files (listdir d) st1 with
        | (st2, Raise e) => (st2, Raise e)
        | (st2, Ret _) =>
            (* sys.path.pop() *)
            match list_pop (sys_path st2) with
            | Raise e => (st2, Raise e)
            | Ret p => register dirs' (mkInterp p (user st2) (registered st2))
            end
        end
      else register dirs' st
  end.

(** The module names that the files of a directory stand for. *)
Definition module_names (d : string) : list string :=
  map (fun f => fst (splitext f)) (listdir d).

(** Every import yields a module whose [register()] returns. *)
Definition every_module_registers : Prop :=
  forall (path : list string) (name : string) (u : U),
  exists f,
    snd (import_module path name u) = Ret (mkModule (Some f)) /\
    forall path' u', snd (f path' u') = Ret tt.

(** Module code leaves [sys.path] as it finds it: neither an import nor a
    [register()] changes it. *)
Definition keeps_sys_path : Prop :=
  forall (path : list string) (name : string) (u : U),
    fst (fst (import_module path name u)) = path /\
    forall m f,
      snd (import_module path name u) = Ret m ->
      register_attr m = Some f ->
      forall path' u', fst (fst (f path' u')) = path'.

(** Module code does not empty [sys.path]. *)
Definition keeps_sys_path_nonempty : Prop :=
  forall (path : list string) (name : string) (u : U),
    (path <> [] -> fst (fst (import_module path name u)) <> []) /\
    forall m f,
      snd (import_module path name u) = Ret m ->
      register_attr m = Some f ->
      forall path' u', path' <> [] -> fst (fst (f path' u')) <> [].
End Loader.
End register_py.
(** ** Sample objects *)

(** An integer and a float property with bounds 0 and 10. *)
Definition sample_IntProp : IntProp.t :=
  IntProp.__init__ "x_res" "" (Int 5) (Some (Int 0)) (Some (Int 10)).

Definition sample_FloatProp : FloatProp.t :=
  FloatProp.__init__ "fps" "" 5%float (Some 0%float) (Some 10%float).

(** The enumeration of the specification's example: items a, b, c. *)
Definition sample_EnumProp : EnumProp.t :=
  EnumProp.__init__ "mode" "" [("a", ["A"]); ("b", ["B"]); ("c", ["C"])].

(** An enumeration declared without items. *)
Definition empty_EnumProp : EnumProp.t := EnumProp.__init__ "none" "" [].

(** The state before any call: a fresh context, no hook entered. *)
Definition fresh_world : world := mkWorld Context.__init__ [].

(** An operator that overrides nothing but its names. *)
Definition plain_op : Operator.t := Operator.plain "Plain" "" "test.plain".

(** An operator that wants exactly two positional arguments, the keyword
    [path], and no keyword [force]. *)
Definition strict_op : Operator.t :=
  Operator.mk "Strict" "" "test.strict" (Some 2) (Some 2) ["path"] ["force"] []
    Operator.default_poll Operator.default_execute.

(** An operator whose [poll] returns [False]. *)
Definition unavailable_op : Operator.t :=
  Operator.mk "Unavailable" "" "test.unavailable" None None [] [] []
    (fun c _ _ => (c, Ret (VBool false))) Operator.default_execute.

(** An operator whose [poll] raises. *)
Definition faulty_poll_op : Operator.t :=
  Operator.mk "Faulty" "" "test.faulty" None None [] [] []
    (fun c _ _ => (c, Raise (Fault "scene is None"))) Operator.default_execute.

(** An operator whose [execute] returns a string that is no status. *)
Definition maybe_op : Operator.t :=
  Operator.mk "Maybe" "" "test.maybe" None None [] [] []
    Operator.default_poll (fun c _ _ => (c, Ret (VStr "MAYBE"))).

(** An operator whose [execute] raises. *)
Definition faulty_execute_op : Operator.t :=
  Operator.mk "Broken" "" "test.broken" None None [] [] []
    Operator.default_poll (fun c _ _ => (c, Raise (Fault "no clip"))).

(** An operator whose [execute] invokes [plain_op]. *)
Definition nesting_op : Operator.t :=
  Operator.mk "Nesting" "" "test.nesting" None None [] [] []
    Operator.default_poll
    (fun c _ _ =>
       let (w, r) := Operator.__call__ plain_op 2%float [] ∅ (mkWorld c []) in
       (context w, r)).

(** The interpreter's default recursion limit. *)
Definition recursion_limit : nat := 1000.

(** The names that CPython 3 provides to the instances of a class written
    as [Scene] and [PropCollection] are: the data descriptors first, then
    the attributes of [object] and the entries that the class statement
    adds. *)
Definition cpython_builtin : builtin_names := fun attr =>
  if existsb (String.eqb attr) ["__class__"; "__dict__"; "__weakref__"]
  then Some DataDescriptor
  else if existsb (String.eqb attr)
       ["__annotations__"; "__delattr__"; "__dir__"; "__doc__"; "__eq__";
        "__format__"; "__ge__"; "__getattribute__"; "__getstate__"; "__gt__";
        "__hash__"; "__init_subclass__"; "__le__"; "__lt__"; "__module__";
        "__ne__"; "__new__"; "__reduce__"; "__reduce_ex__"; "__repr__";
        "__setattr__"; "__sizeof__"; "__str__"; "__subclasshook__"]
  then Some NonData
  else None.

(** A scene as [__init__] leaves it, and a collection of operators with
    one entry. *)
Definition new_Scene : Scene.t := Scene.__init__ 0%float "2021-01-01 00-00-00".

Definition sample_OpCollection : OpCollection.t :=
  OpCollection.mk {[ "plain" := plain_op ]}.

Definition sample_OpsModule : OpsModule.t :=
  OpsModule.mk {[ "test" := sample_OpCollection ]}.


(** An operator that requires the keywords [src] and [dst], in that order,
    and forbids [dry_run] and [force]. *)
Definition copy_op : Operator.t :=
  Operator.mk "Copy" "" "clip.copy" None None ["src"; "dst"] ["dry_run"; "force"] []
    Operator.default_poll Operator.default_execute.

(** A small installation for the loader: the directory [plugins] holds
    [blur.py], a [__pycache__] directory and [broken.py]; the directory
    [addons] holds [notes.txt] and [fade.py]; nothing else is a directory.
    The modules act on the list of operator ids registered so far. *)
Definition sample_isdir (d : string) : bool :=
  String.eqb d "plugins" || String.eqb d "addons".

Definition sample_listdir (d : string) : list string :=
  if String.eqb d "plugins" then ["blur.py"; "__pycache__"; "broken.py"]
  else if String.eqb d "addons" then ["notes.txt"; "fade.py"]
  else [].

Definition sample_splitext (f : string) : string * string :=
  if String.eqb f "blur.py" then ("blur", ".py")
  else if String.eqb f "broken.py" then ("broken", ".py")
  else if String.eqb f "fade.py" then ("fade", ".py")
  else if String.eqb f "notes.txt" then ("notes", ".txt")
  else (f, "").

(** [blur] and [fade] register one operator each; [__pycache__] imports as
    a module without [register]; [broken] registers one operator and then
    fails on a missing attribute; there is no module [notes].  None of
    them touches [sys.path]. *)
Definition sample_import_module (path : list string) (name : string)
    (u : list string)
    : list string * list string * result (@register_py.pymodule (list string)) :=
  if String.eqb name "blur" then
    (path, u,
     Ret (register_py.mkModule
            (Some (fun p u => (p, (u ++ ["render.blur"])%list, Ret tt)))))
  else if String.eqb name "fade" then
    (path, u,
     Ret (register_py.mkModule
            (Some (fun p u => (p, (u ++ ["render.fade"])%list, Ret tt)))))
  else if String.eqb name "__pycache__" then
    (path, u, Ret (register_py.mkModule None))
  else if String.eqb name "broken" then
    (path, u,
     Ret (register_py.mkModule
            (Some (fun p u => (p, (u ++ ["render.half"])%list,
                               Raise (AttributeError "module vpy has no attribute utils"))))))
  else (path, u, Raise (Fault ("No module named " ++ name))).

(** An installation in which every file is a module with a [register()]
    that records the module's name. *)
Definition tidy_import_module (path : list string) (name : string)
    (u : list string)
    : list string * list string * result (@register_py.pymodule (list string)) :=
  (path, u, Ret (register_py.mkModule (Some (fun p u => (p, (u ++ [name])%list, Ret tt))))).

(** An installation in which every file is a module whose [register()]
    puts a directory of its own on [sys.path]. *)
Definition vendoring_import_module (path : list string) (name : string)
    (u : list string)
    : list string * list string * result (@register_py.pymodule (list string)) :=
  (path, u,
   Ret (register_py.mkModule (Some (fun p u => ((p ++ ["vendor"])%list, u, Ret tt))))).

(** The interpreter before loading. *)
Definition sample_interp : @register_py.interp (list string) :=
  register_py.mkInterp ["/usr/lib/python3"] [] [].
(** * Properties *)

(** ** The order on numbers *)

#[export] Instance xint_PyNumLaws : PyNumLaws xint (fun _ => true).
Proof.
  split; simpl.
  - auto.
  - intros [| z |] _; simpl; auto. apply Z.leb_refl.
  - intros [| a |] [| b |]; simpl; auto; try discriminate. lia.
  - intros [| a |] [| b |] _ _; simpl; auto; try discriminate. lia.
  - intros [| a |] [| b |] [| c |]; simpl; auto; try discriminate. lia.
  - intros [| a |] [| b |]; simpl; auto. lia.
Qed.

(** The comparison of the specification of binary64, on which the
    primitive [ltb], [leb] and [eqb] are defined. *)
Ltac cmp_cases :=
  repeat match goal with
    | |- context [Z.compare ?a ?b] => destruct (Z.compare_spec a b); subst
    | H : context [Z.compare ?a ?b] |- _ => destruct (Z.compare_spec a b); subst
    | |- context [PosDef.Pos.compare_cont Eq ?a ?b] =>
        change (PosDef.Pos.compare_cont Eq a b) with (Pos.compare a b);
        destruct (Pos.compare_spec a b); subst
    | H : context [PosDef.Pos.compare_cont Eq ?a ?b] |- _ =>
        change (PosDef.Pos.compare_cont Eq a b) with (Pos.compare a b) in H;
        destruct (Pos.compare_spec a b); subst
    end;
  simpl in *; try discriminate; try lia; auto.

Lemma SFcompare_refl (x : spec_float) :
  x = S754_nan \/ SFcompare x x = Some Eq.
Proof.
  destruct x as [s | s | | s m e]; simpl; auto; right.
  - destruct s; reflexivity.
  - destruct s; cmp_cases.
Qed.

Lemma SFcompare_nan_r (x : spec_float) : SFcompare x S754_nan = None.
Proof. destruct x; reflexivity. Qed.

Lemma SFcompare_antisym (x y : spec_float) (c : comparison) :
  SFcompare x y = Some c -> SFcompare y x = Some (CompOpp c).
Proof.
  destruct x as [s | s | | s m e], y as [s' | s' | | s' m' e']; simpl;
    intros H; inversion H; subst; clear H;
    try destruct s; try destruct s'; try reflexivity; cmp_cases.
Qed.

Lemma SFcompare_total (x y : spec_float) :
  x <> S754_nan -> y <> S754_nan -> exists c, SFcompare x y = Some c.
Proof.
  destruct x, y; simpl; intros Hx Hy; try congruence; eauto.
Qed.

Lemma SFcompare_le_lt_trans (x y z : spec_float) :
  SFleb x y = true -> SFltb y z = true -> SFltb x z = true.
Proof.
  unfold SFleb, SFltb.
  destruct x as [s | s | | s m e], y as [s' | s' | | s' m' e'],
    z as [s'' | s'' | | s'' m'' e'']; simpl;
    try destruct s; try destruct s'; try destruct s''; simpl;
    try discriminate; try reflexivity; cmp_cases.
Qed.

Lemma float_ordered_spec (f : float) :
  float_ordered f = true <-> Prim2SF f <> S754_nan.
Proof.
  unfold float_ordered, is_nan.
  rewrite FloatAxioms.eqb_spec. unfold SFeqb.
  destruct (SFcompare_refl (Prim2SF f)) as [Hn | He].
  - rewrite Hn. simpl. split; [discriminate | congruence].
  - rewrite He. simpl. split; [| reflexivity].
    intros _ Hn. rewrite Hn in He. discriminate.
Qed.

Lemma SFcompare_Some_ordered (x y : spec_float) (c : comparison) :
  SFcompare x y = Some c -> x <> S754_nan /\ y <> S754_nan.
Proof.
  intros H. split; intros ->.
  - discriminate.
  - rewrite SFcompare_nan_r in H. discriminate.
Qed.

#[export] Instance float_PyNumLaws : PyNumLaws float float_ordered.
Proof.
  split; simpl; intros x y.
  - rewrite leb_spec. unfold SFleb. rewrite !float_ordered_spec.
    destruct (SFcompare (Prim2SF x) (Prim2SF y)) as [c |] eqn:E; [| discriminate].
    intros _. exact (SFcompare_Some_ordered _ _ _ E).
  - rename y into Hx. rewrite leb_spec. unfold SFleb.
    apply float_ordered_spec in Hx.
    destruct (SFcompare_refl (Prim2SF x)) as [Hn | He]; [contradiction |].
    rewrite He. reflexivity.
  - rewrite leb_spec, ltb_spec. unfold SFleb, SFltb.
    destruct (SFcompare (Prim2SF x) (Prim2SF y)) as [c |] eqn:E; [| discriminate].
    rewrite (SFcompare_antisym _ _ _ E). destruct c; simpl; auto; discriminate.
  - rewrite !float_ordered_spec, leb_spec, ltb_spec. unfold SFleb, SFltb.
    intros Hx Hy.
    destruct (SFcompare_total _ _ Hx Hy) as [c E]. rewrite E.
    rewrite (SFcompare_antisym _ _ _ E). destruct c; simpl; auto; discriminate.
  - intros z. rewrite leb_spec, !ltb_spec. apply SFcompare_le_lt_trans.
  - rewrite leb_spec, ltb_spec. unfold SFleb, SFltb.
    destruct (SFcompare (Prim2SF x) (Prim2SF y)) as [[| |] |]; auto.
Qed.

(** ** Integer and float properties *)

Section Clamp.
Context {A : Type} `{PyNum A} (ordered : A -> bool) `{!PyNumLaws A ordered}.

(** What [set] stores, by cases on [v]. *)
Lemma NumProp_set_below (p : NumProp.t A) (v : A) :
  py_le (NumProp.min p) (NumProp.max p) = true ->
  py_lt v (NumProp.min p) = true ->
  NumProp.get (NumProp.set p v) = NumProp.min p.
Proof.
  intros Hb Hlt. unfold NumProp.set, NumProp.get. simpl.
  rewrite Hlt. unfold py_gt. rewrite (le_not_gt _ _ Hb). reflexivity.
Qed.

Lemma NumProp_set_above (p : NumProp.t A) (v : A) :
  py_le (NumProp.min p) (NumProp.max p) = true ->
  py_gt v (NumProp.max p) = true ->
  NumProp.get (NumProp.set p v) = NumProp.max p.
Proof.
  intros Hb Hgt. unfold NumProp.set, NumProp.get. simpl.
  unfold py_gt in *.
  assert (Hmv : py_lt (NumProp.min p) v = true) by exact (le_lt_trans _ _ _ Hb Hgt).
  rewrite (le_not_gt _ _ (lt_le _ _ Hmv)). rewrite Hgt. reflexivity.
Qed.

Lemma NumProp_set_within (p : NumProp.t A) (v : A) :
  py_le (NumProp.min p) v = true ->
  py_le v (NumProp.max p) = true ->
  NumProp.get (NumProp.set p v) = v.
Proof.
  intros Hl Hu. unfold NumProp.set, NumProp.get. simpl.
  rewrite (le_not_gt _ _ Hl). unfold py_gt. rewrite (le_not_gt _ _ Hu).
  reflexivity.
Qed.

Lemma NumProp_set_bounds (p : NumProp.t A) (v : A) :
  py_le (NumProp.min p) (NumProp.max p) = true ->
  ordered v = true ->
  py_le (NumProp.min p) (NumProp.get (NumProp.set p v)) = true /\
  py_le (NumProp.get (NumProp.set p v)) (NumProp.max p) = true.
Proof.
  intros Hb Hv.
  destruct (le_ordered _ _ Hb) as [Hmin Hmax].
  destruct (py_lt v (NumProp.min p)) eqn:Hlt.
  - rewrite NumProp_set_below by assumption. split; [apply le_refl |]; assumption.
  - destruct (py_gt v (NumProp.max p)) eqn:Hgt.
    + rewrite NumProp_set_above by assumption. split; [| apply le_refl]; assumption.
    + assert (Hl : py_le (NumProp.min p) v = true) by (apply not_lt_le; assumption).
      assert (Hu : py_le v (NumProp.max p) = true) by (apply not_lt_le; assumption).
      rewrite NumProp_set_within by assumption. split; assumption.
Qed.
End Clamp.

(** C6, as the code has it: for every integer property, and for every
    float property and input [v] that is not a NaN, with bounds
    [min <= max]: after [set(v)], [min <= get() <= max]; if
    [min <= v <= max] then [get()] is [v]; a value below [min] is stored as
    [min] and a value above [max] as [max]. *)
Theorem NumProp_set_clamps :
  (forall (p : IntProp.t) (v : xint),
     xint_le (NumProp.min p) (NumProp.max p) = true ->
     (xint_le (NumProp.min p) (IntProp.get (IntProp.set p v)) = true /\
      xint_le (IntProp.get (IntProp.set p v)) (NumProp.max p) = true) /\
     (xint_le (NumProp.min p) v = true -> xint_le v (NumProp.max p) = true ->
      IntProp.get (IntProp.set p v) = v) /\
     (xint_lt v (NumProp.min p) = true ->
      IntProp.get (IntProp.set p v) = NumProp.min p) /\
     (xint_lt (NumProp.max p) v = true ->
      IntProp.get (IntProp.set p v) = NumProp.max p)) /\
  (forall (p : FloatProp.t) (v : float),
     PrimFloat.leb (NumProp.min p) (NumProp.max p) = true ->
     is_nan v = false ->
     (PrimFloat.leb (NumProp.min p) (FloatProp.get (FloatProp.set p v)) = true /\
      PrimFloat.leb (FloatProp.get (FloatProp.set p v)) (NumProp.max p) = true) /\
     (PrimFloat.leb (NumProp.min p) v = true ->
      PrimFloat.leb v (NumProp.max p) = true ->
      FloatProp.get (FloatProp.set p v) = v) /\
     (PrimFloat.ltb v (NumProp.min p) = true ->
      FloatProp.get (FloatProp.set p v) = NumProp.min p) /\
     (PrimFloat.ltb (NumProp.max p) v = true ->
      FloatProp.get (FloatProp.set p v) = NumProp.max p)).
Proof.
  split.
  - intros p v Hb. repeat split.
    + apply (@NumProp_set_bounds xint xint_PyNum (fun _ => true) xint_PyNumLaws p v Hb eq_refl).
    + apply (@NumProp_set_bounds xint xint_PyNum (fun _ => true) xint_PyNumLaws p v Hb eq_refl).
    + apply (@NumProp_set_within xint xint_PyNum (fun _ => true) xint_PyNumLaws p v).
    + apply (@NumProp_set_below xint xint_PyNum (fun _ => true) xint_PyNumLaws p v Hb).
    + apply (@NumProp_set_above xint xint_PyNum (fun _ => true) xint_PyNumLaws p v Hb).
  - intros p v Hb Hv.
    assert (Ho : float_ordered v = true) by (unfold float_ordered; rewrite Hv; reflexivity).
    repeat split.
    + apply (@NumProp_set_bounds float float_PyNum float_ordered float_PyNumLaws p v Hb Ho).
    + apply (@NumProp_set_bounds float float_PyNum float_ordered float_PyNumLaws p v Hb Ho).
    + apply (@NumProp_set_within float float_PyNum float_ordered float_PyNumLaws p v).
    + apply (@NumProp_set_below float float_PyNum float_ordered float_PyNumLaws p v Hb).
    + apply (@NumProp_set_above float float_PyNum float_ordered float_PyNumLaws p v Hb).
Qed.

(** The examples of the specification: with bounds 0 and 10, [set(15)]
    stores 10, [set(-3)] stores 0 and [set(5)] stores 5. *)
Lemma NumProp_set_clamps_witness :
  IntProp.get (IntProp.set sample_IntProp (Int 15)) = Int 10 /\
  IntProp.get (IntProp.set sample_IntProp (Int (-3))) = Int 0 /\
  IntProp.get (IntProp.set sample_IntProp (Int 5)) = Int 5 /\
  FloatProp.get (FloatProp.set sample_FloatProp 15%float) = 10%float /\
  FloatProp.get (FloatProp.set sample_FloatProp (-3)%float) = 0%float /\
  FloatProp.get (FloatProp.set sample_FloatProp 5%float) = 5%float.
Proof.
  pose proof (proj1 NumProp_set_clamps sample_IntProp) as HI.
  pose proof (proj2 NumProp_set_clamps sample_FloatProp) as HF.
  refine (conj _ (conj _ (conj _ (conj _ (conj _ _))))).
  - exact (proj2 (proj2 (proj2 (HI (Int 15) eq_refl))) eq_refl).
  - exact (proj1 (proj2 (proj2 (HI (Int (-3)) eq_refl))) eq_refl).
  - exact (proj1 (proj2 (HI (Int 5) eq_refl)) eq_refl eq_refl).
  - exact (proj2 (proj2 (proj2 (HF 15%float eq_refl eq_refl))) eq_refl).
  - exact (proj1 (proj2 (proj2 (HF (-3)%float eq_refl eq_refl))) eq_refl).
  - exact (proj1 (proj2 (HF 5%float eq_refl eq_refl)) eq_refl eq_refl).
Defined.

(** C6 as stated fails for a float property: a NaN compares neither below
    [min] nor above [max], so [set] stores it, and it does not lie between
    the bounds. *)
Lemma FloatProp_set_nan_escapes_bounds :
  ~ (forall (p : FloatProp.t) (v : float),
       PrimFloat.leb (NumProp.min p) (NumProp.max p) = true ->
       PrimFloat.leb (NumProp.min p) (FloatProp.get (FloatProp.set p v)) = true /\
       PrimFloat.leb (FloatProp.get (FloatProp.set p v)) (NumProp.max p) = true).
Proof.
  intros H.
  destruct (H sample_FloatProp nan eq_refl) as [Hl _].
  vm_compute in Hl. discriminate Hl.
Qed.

(** C9: [__init__] stores the default as the value without clamping it, so
    [get()] returns the default, whatever the bounds; a default outside the
    bounds stays outside until [set] is called, which brings the value
    within them. *)
Theorem NumProp_init_keeps_default :
  (forall (name description : string) (d : xint) (min max : option xint),
     IntProp.get (IntProp.__init__ name description d min max) = d) /\
  (forall (name description : string) (d : float) (min max : option float),
     FloatProp.get (FloatProp.__init__ name description d min max) = d) /\
  (let p := IntProp.__init__ "n" "" (Int 15) (Some (Int 0)) (Some (Int 10)) in
   xint_le (IntProp.get p) (NumProp.max p) = false /\
   xint_le (IntProp.get (IntProp.set p (IntProp.get p))) (NumProp.max p) = true) /\
  (let p := FloatProp.__init__ "f" "" (-3)%float (Some 0%float) (Some 10%float) in
   PrimFloat.leb (NumProp.min p) (FloatProp.get p) = false /\
   PrimFloat.leb (NumProp.min p) (FloatProp.get (FloatProp.set p (FloatProp.get p))) = true).
Proof.
  split; [| split; [| split]].
  - intros. reflexivity.
  - intros. reflexivity.
  - split; reflexivity.
  - split; vm_compute; reflexivity.
Qed.

(** ** Enumeration properties *)

Lemma EnumProp_set_idx (p : EnumProp.t) (i : Z) :
  EnumProp.idx (EnumProp.set p i) =
  Z.min i (Z.of_nat (length (EnumProp.items p)) - 1).
Proof. reflexivity. Qed.

Lemma EnumProp_set_items (p : EnumProp.t) (i : Z) :
  EnumProp.items (EnumProp.set p i) = EnumProp.items p.
Proof. reflexivity. Qed.

(** C3, as the code has it: after [set(i)] on an enumeration of [N] items
    the stored index is [min(i, N-1)]: for [0 <= i <= N-1] it is [i]
    itself, so it lies in [0 .. N-1]; it is [N-1] for [i >= N]; and a
    negative [i] is stored as it is.  The items stay as they are. *)
Theorem EnumProp_set_clamps_above_only (p : EnumProp.t) (i : Z) :
  let N := Z.of_nat (length (EnumProp.items p)) in
  EnumProp.idx (EnumProp.set p i) = Z.min i (N - 1) /\
  (0 <= i <= N - 1 ->
   EnumProp.idx (EnumProp.set p i) = i /\
   0 <= EnumProp.idx (EnumProp.set p i) <= N - 1) /\
  (i >= N -> EnumProp.idx (EnumProp.set p i) = N - 1) /\
  (i < 0 -> EnumProp.idx (EnumProp.set p i) = i) /\
  EnumProp.items (EnumProp.set p i) = EnumProp.items p.
Proof.
  intros N. rewrite EnumProp_set_idx, EnumProp_set_items. fold N.
  repeat split; lia.
Qed.

Lemma EnumProp_set_clamps_above_only_witness :
  EnumProp.idx (EnumProp.set sample_EnumProp 1) = 1 /\
  0 <= EnumProp.idx (EnumProp.set sample_EnumProp 1) <= 2 /\
  EnumProp.idx (EnumProp.set sample_EnumProp 5) = 2 /\
  EnumProp.idx (EnumProp.set sample_EnumProp (-1)) = -1.
Proof.
  assert (H1 : 0 <= 1 <= Z.of_nat (length (EnumProp.items sample_EnumProp)) - 1)
    by (simpl; lia).
  refine (conj _ (conj _ (conj _ _))).
  - exact (proj1 (proj1 (proj2 (EnumProp_set_clamps_above_only sample_EnumProp 1)) H1)).
  - exact (proj2 (proj1 (proj2 (EnumProp_set_clamps_above_only sample_EnumProp 1)) H1)).
  - apply (proj1 (proj2 (proj2 (EnumProp_set_clamps_above_only sample_EnumProp 5)))).
    simpl. lia.
  - apply (proj1 (proj2 (proj2 (proj2
             (EnumProp_set_clamps_above_only sample_EnumProp (-1)))))).
    lia.
Defined.

(** C3 as stated fails below zero: [-1 <= N-1], and [set(-1)] stores [-1]. *)
Lemma EnumProp_set_negative_index_kept :
  ~ (forall (p : EnumProp.t) (i : Z),
       i <= Z.of_nat (length (EnumProp.items p)) - 1 ->
       0 <= EnumProp.idx (EnumProp.set p i) <= Z.of_nat (length (EnumProp.items p)) - 1).
Proof.
  intros H.
  assert (Hi : -1 <= Z.of_nat (length (EnumProp.items sample_EnumProp)) - 1)
    by (simpl; lia).
  specialize (H sample_EnumProp (-1) Hi).
  rewrite EnumProp_set_idx in H. simpl in H. lia.
Qed.

Lemma py_index_in_range {A : Type} (l : list A) (i : Z) :
  - Z.of_nat (length l) <= i <= Z.of_nat (length l) - 1 ->
  exists a,
    nth_error l (Z.to_nat (if Z.ltb i 0 then i + Z.of_nat (length l) else i)) = Some a /\
    py_index l i = Ret a.
Proof.
  intros Hi. unfold py_index.
  set (n := Z.of_nat (length l)) in *.
  set (pos := if Z.ltb i 0 then i + n else i).
  assert (Hpos : 0 <= pos < n) by (subst pos; destruct (Z.ltb_spec i 0); lia).
  destruct (Z.ltb_spec pos 0); [lia |].
  destruct (Z.leb_spec n pos); [lia |]. simpl.
  destruct (nth_error l (Z.to_nat pos)) as [a |] eqn:E.
  - exists a. split; reflexivity.
  - apply nth_error_None in E. subst n. lia.
Qed.

Lemma py_index_out_of_range {A : Type} (l : list A) (i : Z) :
  i < - Z.of_nat (length l) \/ Z.of_nat (length l) <= i ->
  py_index l i = Raise IndexError.
Proof.
  intros Hi. unfold py_index.
  set (n := Z.of_nat (length l)) in *.
  assert (Hn : 0 <= n) by (subst n; lia).
  destruct (Z.ltb_spec i 0).
  - destruct (Z.ltb_spec (i + n) 0); [reflexivity | lia].
  - destruct (Z.ltb_spec i 0); [lia |].
    destruct (Z.leb_spec n i); [reflexivity | lia].
Qed.

(** C10: [get] subscripts [items] with the stored index unguarded.  It
    raises [IndexError] for an enumeration without items, and after the
    index was set below [-len(items)]; it returns the id of the selected
    item whenever [items] is not empty and the index lies in
    [-len(items) .. len(items)-1]. *)
Theorem EnumProp_get_unguarded :
  (forall p : EnumProp.t,
     EnumProp.items p = [] -> EnumProp.get p = Raise IndexError) /\
  (forall (p : EnumProp.t) (i : Z),
     i < - Z.of_nat (length (EnumProp.items p)) ->
     EnumProp.get (EnumProp.set p i) = Raise IndexError) /\
  (forall p : EnumProp.t,
     EnumProp.items p <> [] ->
     - Z.of_nat (length (EnumProp.items p)) <= EnumProp.idx p
       <= Z.of_nat (length (EnumProp.items p)) - 1 ->
     exists it : item,
       nth_error (EnumProp.items p)
         (Z.to_nat (if Z.ltb (EnumProp.idx p) 0
                    then EnumProp.idx p + Z.of_nat (length (EnumProp.items p))
                    else EnumProp.idx p)) = Some it /\
       EnumProp.get p = Ret (fst it)).
Proof.
  refine (conj _ (conj _ _)).
  - intros p Hp. unfold EnumProp.get.
    rewrite py_index_out_of_range; [reflexivity |].
    rewrite Hp. simpl. lia.
  - intros p i Hi. unfold EnumProp.get.
    rewrite EnumProp_set_items, EnumProp_set_idx.
    rewrite py_index_out_of_range; [reflexivity |]. lia.
  - intros p _ Hi. unfold EnumProp.get.
    destruct (py_index_in_range (EnumProp.items p) (EnumProp.idx p) Hi)
      as [it [Hnth Hidx]].
    exists it. rewrite Hidx. split; [exact Hnth | reflexivity].
Qed.

Lemma EnumProp_get_unguarded_witness :
  EnumProp.get empty_EnumProp = Raise IndexError /\
  EnumProp.get (EnumProp.set sample_EnumProp (-4)) = Raise IndexError /\
  exists it : item,
    nth_error (EnumProp.items sample_EnumProp) 2 = Some it /\
    EnumProp.get (EnumProp.set sample_EnumProp (-1)) = Ret (fst it).
Proof.
  refine (conj _ (conj _ _)).
  - exact (proj1 EnumProp_get_unguarded empty_EnumProp eq_refl).
  - apply (proj1 (proj2 EnumProp_get_unguarded) sample_EnumProp (-4)).
    simpl. lia.
  - apply (proj2 (proj2 EnumProp_get_unguarded) (EnumProp.set sample_EnumProp (-1))).
    + discriminate.
    + simpl. lia.
Defined.

(** ** The operator call protocol *)

Lemma report_error_run (self : Operator.t) (now : float) (msg : string) (w : world) :
  Operator.report self now "ERROR" msg w =
  (mkWorld (reported now msg (context w)) (calls w), Ret tt).
Proof. reflexivity. Qed.

Lemma num_changes_reported (now : float) (msg : string) (c : Context.t) :
  Context.num_changes (reported now msg c) = Context.num_changes c.
Proof. reflexivity. Qed.

Lemma last_report_reported (now : float) (msg : string) (c : Context.t) :
  Context.last_report (reported now msg c) = Some ("ERROR", msg).
Proof. reflexivity. Qed.

Lemma num_changes_counted (c : Context.t) :
  Context.num_changes (counted c) = Context.num_changes c + 1.
Proof. reflexivity. Qed.

(** The loop over [kwargs_include] either finds every name and changes
    nothing, or reports the first missing one and returns. *)
Lemma for_kwargs_include_cases (self : Operator.t) (now : float)
    (l : list string) (kwargs : gmap string value) (w : world) :
  ((forall a, In a l -> kwargs !! a <> None) /\
   Operator.for_kwargs_include self now l kwargs w = (w, Ret None)) \/
  ((exists a, In a l /\ kwargs !! a = None) /\
   exists msg,
     Operator.for_kwargs_include self now l kwargs w =
     (mkWorld (reported now msg (context w)) (calls w), Ret (Some (VStr "CANCELLED")))).
Proof.
  induction l as [| arg l IH]; simpl.
  - left. split; [intros a [] | reflexivity].
  - destruct (kwargs !! arg) as [v |] eqn:E.
    + destruct IH as [[Hall Hrun] | [[a [Ha Hmiss]] Hrun]].
      * left. split; [| exact Hrun].
        intros a [<- | Ha]; [congruence | auto].
      * right. split; [exists a; auto | exact Hrun].
    + right. split; [exists arg; auto |].
      eexists. reflexivity.
Qed.

Lemma for_kwargs_exclude_cases (self : Operator.t) (now : float)
    (l : list string) (kwargs : gmap string value) (w : world) :
  ((forall a, In a l -> kwargs !! a = None) /\
   Operator.for_kwargs_exclude self now l kwargs w = (w, Ret None)) \/
  ((exists a, In a l /\ kwargs !! a <> None) /\
   exists msg,
     Operator.for_kwargs_exclude self now l kwargs w =
     (mkWorld (reported now msg (context w)) (calls w), Ret (Some (VStr "CANCELLED")))).
Proof.
  induction l as [| arg l IH]; simpl.
  - left. split; [intros a [] | reflexivity].
  - destruct (kwargs !! arg) as [v |] eqn:E.
    + right. split; [exists arg; split; [auto | congruence] |].
      eexists. reflexivity.
    + destruct IH as [[Hall Hrun] | [[a [Ha Hgiven]] Hrun]].
      * left. split; [| exact Hrun].
        intros a [<- | Ha]; auto.
      * right. split; [exists a; auto | exact Hrun].
Qed.

(** Every call either meets the contracts or breaks one. *)
Lemma valid_or_invalid_call (self : Operator.t)
    (args : list value) (kwargs : gmap string value) :
  valid_call self args kwargs \/ invalid_call self args kwargs.
Proof.
  unfold valid_call, invalid_call.
  destruct (Operator.too_few self args); [auto |].
  destruct (Operator.too_many self args); [auto |].
  destruct (for_kwargs_include_cases self 0%float (Operator.kwargs_include self)
              kwargs (mkWorld Context.__init__ [])) as [[Hi _] | [Hi _]]; [| auto].
  destruct (for_kwargs_exclude_cases self 0%float (Operator.kwargs_exclude self)
              kwargs (mkWorld Context.__init__ [])) as [[He _] | [He _]]; auto 6.
Qed.

Lemma valid_not_invalid_call (self : Operator.t)
    (args : list value) (kwargs : gmap string value) :
  valid_call self args kwargs -> ~ invalid_call self args kwargs.
Proof.
  intros (Hf & Hm & Hi & He) [H | [H | [[a [Ha H]] | [a [Ha H]]]]].
  - congruence.
  - congruence.
  - exact (Hi a Ha H).
  - exact (H (He a Ha)).
Qed.

(** A call that breaks a contract is counted, reports an error and
    returns ["CANCELLED"]; no hook is entered. *)
Lemma call_invalid (self : Operator.t) (now : float)
    (args : list value) (kwargs : gmap string value) (w : world) :
  invalid_call self args kwargs ->
  exists msg,
    Operator.__call__ self now args kwargs w =
    (mkWorld (reported now msg (counted (context w))) (calls w),
     Ret (VStr "CANCELLED")).
Proof.
  intros Hinv. unfold Operator.__call__, bind, modify_context. simpl.
  fold (counted (context w)).
  destruct (Operator.too_few self args) eqn:Hf.
  { eexists. reflexivity. }
  destruct (Operator.too_many self args) eqn:Hm.
  { eexists. reflexivity. }
  set (w1 := mkWorld (counted (context w)) (calls w)).
  destruct (for_kwargs_include_cases self now (Operator.kwargs_include self) kwargs w1)
    as [[Hi ->] | [_ [msg ->]]].
  2: { exists msg. reflexivity. }
  destruct (for_kwargs_exclude_cases self now (Operator.kwargs_exclude self) kwargs w1)
    as [[He _] | [_ [msg ->]]].
  2: { exists msg. reflexivity. }
  exfalso. apply (valid_not_invalid_call self args kwargs); [| exact Hinv].
  repeat split; assumption.
Qed.

(** A call that meets the contracts is counted and goes on to [poll]. *)
Lemma call_valid (self : Operator.t) (now : float)
    (args : list value) (kwargs : gmap string value) (w : world) :
  valid_call self args kwargs ->
  Operator.__call__ self now args kwargs w =
  Operator.poll_and_execute self now args kwargs
    (mkWorld (counted (context w)) (calls w)).
Proof.
  intros (Hf & Hm & Hi & He). unfold Operator.__call__, bind, modify_context. simpl.
  fold (counted (context w)). rewrite Hf, Hm.
  set (w1 := mkWorld (counted (context w)) (calls w)).
  destruct (for_kwargs_include_cases self now (Operator.kwargs_include self) kwargs w1)
    as [[_ ->] | [[a [Ha Hmiss]] _]]; [| destruct (Hi a Ha Hmiss)].
  destruct (for_kwargs_exclude_cases self now (Operator.kwargs_exclude self) kwargs w1)
    as [[_ ->] | [[a [Ha Hgiven]] _]]; [| destruct (Hgiven (He a Ha))].
  reflexivity.
Qed.

(** When [poll] raises or returns a false value, the call reports the poll
    failure on the context [poll] left, and only [poll] was entered. *)
Lemma poll_and_execute_poll_fails (self : Operator.t) (now : float)
    (args : list value) (kwargs : gmap string value) (w : world) :
  poll_fails self (context w) args kwargs ->
  Operator.poll_and_execute self now args kwargs w =
  (mkWorld
     (reported now ("Poll in Operator " ++ Operator.idname self ++ " failed.")
        (fst (Operator.poll self (context w) args kwargs)))
     (calls w ++ [Poll])%list,
   Ret (VStr "CANCELLED")).
Proof.
  unfold poll_fails, Operator.poll_and_execute, bind, try_except, call_hook.
  destruct (Operator.poll self (context w) args kwargs) as [c [v | e]]; simpl.
  - intros ->. reflexivity.
  - intros _. reflexivity.
Qed.

(** When [poll] returns a true value, [execute] runs on the context [poll]
    left, and its outcome decides how the call ends. *)
Lemma poll_and_execute_poll_succeeds (self : Operator.t) (now : float)
    (args : list value) (kwargs : gmap string value) (w : world) :
  poll_succeeds self (context w) args kwargs ->
  Operator.poll_and_execute self now args kwargs w =
  let c1 := fst (Operator.poll self (context w) args kwargs) in
  let c2 := fst (Operator.execute self c1 args kwargs) in
  let hooks := ((calls w ++ [Poll]) ++ [Execute])%list in
  match snd (Operator.execute self c1 args kwargs) with
  | Raise e => (mkWorld c2 hooks, Raise e)
  | Ret val =>
      if py_in_strs val ["FINISHED"; "CANCELLED"]
      then (mkWorld c2 hooks, Ret VNone)
      else (mkWorld
              (reported now
                 ("Invalid return in Operator " ++ Operator.idname self ++ " call.") c2)
              hooks,
            Ret (VStr "FINISHED"))
  end.
Proof.
  unfold poll_succeeds, Operator.poll_and_execute, bind, try_except, call_hook.
  destruct (Operator.poll self (context w) args kwargs) as [c1 r]; simpl.
  intros [v [-> Hv]]. rewrite Hv. simpl.
  destruct (Operator.execute self c1 args kwargs) as [c2 [val | e]]; simpl.
  - unfold py_in_strs. simpl.
    match goal with |- context [negb ?b] => destruct b end; reflexivity.
  - reflexivity.
Qed.

Lemma poll_fails_or_succeeds (self : Operator.t) (c : Context.t)
    (args : list value) (kwargs : gmap string value) :
  poll_fails self c args kwargs \/ poll_succeeds self c args kwargs.
Proof.
  unfold poll_fails, poll_succeeds.
  destruct (snd (Operator.poll self c args kwargs)) as [v | e]; [| auto].
  destruct (truthy v) eqn:Hv; [right; exists v | left]; auto.
Qed.

(** A valid status is one of the two strings. *)
Lemma py_in_strs_status (v : value) :
  py_in_strs v ["FINISHED"; "CANCELLED"] = true <->
  v = VStr "FINISHED" \/ v = VStr "CANCELLED".
Proof.
  unfold py_in_strs, existsb. rewrite orb_false_r, orb_true_iff.
  destruct v as [| b | z | f | s]; unfold py_eq_str;
    try (split; [intros [H | H]; discriminate H | intros [H | H]; discriminate H]).
  rewrite !String.eqb_eq.
  split; intros [H | H]; [left | right | left | right]; congruence.
Qed.

(** C7: a call with too few or too many positional arguments, without a
    required keyword or with a forbidden one sets [last_report] to an
    ERROR, returns ["CANCELLED"], and enters neither [poll] nor [execute]. *)
Theorem call_invalid_cancelled (self : Operator.t) (now : float)
    (args : list value) (kwargs : gmap string value) (w : world) :
  invalid_call self args kwargs ->
  (exists msg,
     Context.last_report (context (fst (Operator.__call__ self now args kwargs w)))
     = Some ("ERROR", msg)) /\
  snd (Operator.__call__ self now args kwargs w) = Ret (VStr "CANCELLED") /\
  calls (fst (Operator.__call__ self now args kwargs w)) = calls w.
Proof.
  intros Hinv. destruct (call_invalid self now args kwargs w Hinv) as [msg ->].
  simpl. split; [exists msg |]; auto.
Qed.

Lemma call_invalid_cancelled_witness :
  (* one positional argument where two are wanted *)
  snd (Operator.__call__ strict_op 1%float [VInt 1] {[ "path" := VStr "a.mp4" ]}
         fresh_world) = Ret (VStr "CANCELLED") /\
  (* three where two are wanted *)
  snd (Operator.__call__ strict_op 1%float [VInt 1; VInt 2; VInt 3]
         {[ "path" := VStr "a.mp4" ]} fresh_world) = Ret (VStr "CANCELLED") /\
  (* the keyword path is missing *)
  calls (fst (Operator.__call__ strict_op 1%float [VInt 1; VInt 2] ∅ fresh_world)) = [] /\
  (* the keyword force is given *)
  calls (fst (Operator.__call__ strict_op 1%float [VInt 1; VInt 2]
                (<[ "force" := VBool true ]> {[ "path" := VStr "a.mp4" ]})
                fresh_world)) = [].
Proof.
  refine (conj _ (conj _ (conj _ _))).
  - apply (call_invalid_cancelled strict_op 1%float [VInt 1]
             {[ "path" := VStr "a.mp4" ]} fresh_world).
    left. reflexivity.
  - apply (call_invalid_cancelled strict_op 1%float [VInt 1; VInt 2; VInt 3]
             {[ "path" := VStr "a.mp4" ]} fresh_world).
    right. left. reflexivity.
  - apply (call_invalid_cancelled strict_op 1%float [VInt 1; VInt 2] ∅ fresh_world).
    right. right. left. exists "path". split; [left |]; reflexivity.
  - apply (call_invalid_cancelled strict_op 1%float [VInt 1; VInt 2]
             (<[ "force" := VBool true ]> {[ "path" := VStr "a.mp4" ]}) fresh_world).
    right. right. right. exists "force". split; [left; reflexivity |].
    vm_compute. discriminate.
Defined.

(** C8: when the call meets the contracts and [poll] raises or returns a
    false value, the call sets [last_report] to the poll-failure ERROR and
    returns ["CANCELLED"]; [poll] is the only hook entered, so [execute] is
    not called.  A raising [poll] and one returning [False] end alike. *)
Theorem call_poll_failure_cancelled (self : Operator.t) (now : float)
    (args : list value) (kwargs : gmap string value) (w : world) :
  valid_call self args kwargs ->
  poll_fails self (counted (context w)) args kwargs ->
  Context.last_report (context (fst (Operator.__call__ self now args kwargs w)))
  = Some ("ERROR", "Poll in Operator " ++ Operator.idname self ++ " failed.") /\
  snd (Operator.__call__ self now args kwargs w) = Ret (VStr "CANCELLED") /\
  calls (fst (Operator.__call__ self now args kwargs w)) = (calls w ++ [Poll])%list.
Proof.
  intros Hv Hp. rewrite (call_valid self now args kwargs w Hv).
  rewrite poll_and_execute_poll_fails by exact Hp.
  simpl. auto.
Qed.

Lemma call_poll_failure_cancelled_witness :
  (* poll returns False *)
  (snd (Operator.__call__ unavailable_op 1%float [] ∅ fresh_world) = Ret (VStr "CANCELLED") /\
   calls (fst (Operator.__call__ unavailable_op 1%float [] ∅ fresh_world)) = [Poll]) /\
  (* poll raises *)
  (snd (Operator.__call__ faulty_poll_op 1%float [] ∅ fresh_world) = Ret (VStr "CANCELLED") /\
   calls (fst (Operator.__call__ faulty_poll_op 1%float [] ∅ fresh_world)) = [Poll]).
Proof.
  split.
  - apply (call_poll_failure_cancelled unavailable_op 1%float [] ∅ fresh_world).
    + repeat split; intros a [].
    + reflexivity.
  - apply (call_poll_failure_cancelled faulty_poll_op 1%float [] ∅ fresh_world).
    + repeat split; intros a [].
    + exact I.
Defined.

(** C5: when the call meets the contracts, [poll] returns a true value and
    [execute] returns something that is neither ["FINISHED"] nor
    ["CANCELLED"], the call sets [last_report] to the invalid-return ERROR
    and returns ["FINISHED"]. *)
Theorem call_invalid_return_reported_and_finished (self : Operator.t) (now : float)
    (args : list value) (kwargs : gmap string value) (w : world) (val : value) :
  valid_call self args kwargs ->
  poll_succeeds self (counted (context w)) args kwargs ->
  snd (Operator.execute self
         (fst (Operator.poll self (counted (context w)) args kwargs)) args kwargs)
  = Ret val ->
  val <> VStr "FINISHED" ->
  val <> VStr "CANCELLED" ->
  Context.last_report (context (fst (Operator.__call__ self now args kwargs w)))
  = Some ("ERROR", "Invalid return in Operator " ++ Operator.idname self ++ " call.") /\
  snd (Operator.__call__ self now args kwargs w) = Ret (VStr "FINISHED").
Proof.
  intros Hv Hp Hex Hf Hc. rewrite (call_valid self now args kwargs w Hv).
  rewrite poll_and_execute_poll_succeeds by exact Hp.
  cbv zeta. cbn [context]. rewrite Hex.
  destruct (py_in_strs val ["FINISHED"; "CANCELLED"]) eqn:Hin.
  - apply py_in_strs_status in Hin. tauto.
  - split; reflexivity.
Qed.

Lemma call_invalid_return_reported_and_finished_witness :
  Context.last_report (context (fst (Operator.__call__ maybe_op 1%float [] ∅ fresh_world)))
  = Some ("ERROR", "Invalid return in Operator test.maybe call.") /\
  snd (Operator.__call__ maybe_op 1%float [] ∅ fresh_world) = Ret (VStr "FINISHED").
Proof.
  apply (call_invalid_return_reported_and_finished maybe_op 1%float [] ∅ fresh_world
           (VStr "MAYBE")).
  - repeat split; intros a [].
  - exists (VBool true). split; reflexivity.
  - reflexivity.
  - discriminate.
  - discriminate.
Defined.

(** How a call moves the change counter, whatever the hooks do: by one,
    and by what [poll] and [execute] add while they run. *)
Lemma call_num_changes_cases (self : Operator.t) (now : float)
    (args : list value) (kwargs : gmap string value) (w : world) :
  let c0 := counted (context w) in
  let c1 := fst (Operator.poll self c0 args kwargs) in
  let c2 := fst (Operator.execute self c1 args kwargs) in
  let n := Context.num_changes (context (fst (Operator.__call__ self now args kwargs w))) in
  n = Context.num_changes c0 \/
  n = Context.num_changes c1 \/
  n = Context.num_changes c2.
Proof.
  cbv zeta.
  destruct (valid_or_invalid_call self args kwargs) as [Hv | Hinv].
  - rewrite (call_valid self now args kwargs w Hv).
    destruct (poll_fails_or_succeeds self (counted (context w)) args kwargs) as [Hp | Hp].
    + rewrite poll_and_execute_poll_fails by exact Hp. right. left. reflexivity.
    + rewrite poll_and_execute_poll_succeeds by exact Hp.
      cbv zeta. cbn [context]. right. right.
      destruct (snd (Operator.execute self _ args kwargs)) as [val | e]; [| reflexivity].
      destruct (py_in_strs val ["FINISHED"; "CANCELLED"]); reflexivity.
  - destruct (call_invalid self now args kwargs w Hinv) as [msg ->]. left. reflexivity.
Qed.

(** C2: an operator call adds exactly one to [context.num_changes], in
    every branch, given that [poll] and [execute] themselves leave the
    counter alone. *)
Theorem call_counts_exactly_once (self : Operator.t) (now : float)
    (args : list value) (kwargs : gmap string value) (w : world) :
  keeps_num_changes (Operator.poll self) ->
  keeps_num_changes (Operator.execute self) ->
  Context.num_changes (context (fst (Operator.__call__ self now args kwargs w)))
  = Context.num_changes (context w) + 1.
Proof.
  intros Hp He.
  pose proof (call_num_changes_cases self now args kwargs w) as H. cbv zeta in H.
  rewrite He, Hp, num_changes_counted in H. tauto.
Qed.

Lemma call_counts_exactly_once_witness :
  (* a contract is broken *)
  Context.num_changes
    (context (fst (Operator.__call__ strict_op 1%float [] ∅ fresh_world))) = 1 /\
  (* poll returns False *)
  Context.num_changes
    (context (fst (Operator.__call__ unavailable_op 1%float [] ∅ fresh_world))) = 1 /\
  (* execute returns a status *)
  Context.num_changes
    (context (fst (Operator.__call__ plain_op 1%float [] ∅ fresh_world))) = 1 /\
  (* execute returns no status *)
  Context.num_changes
    (context (fst (Operator.__call__ maybe_op 1%float [] ∅ fresh_world))) = 1.
Proof.
  refine (conj _ (conj _ (conj _ _))).
  - apply (call_counts_exactly_once strict_op 1%float [] ∅ fresh_world);
      intros c a k; reflexivity.
  - apply (call_counts_exactly_once unavailable_op 1%float [] ∅ fresh_world);
      intros c a k; reflexivity.
  - apply (call_counts_exactly_once plain_op 1%float [] ∅ fresh_world);
      intros c a k; reflexivity.
  - apply (call_counts_exactly_once maybe_op 1%float [] ∅ fresh_world);
      intros c a k; reflexivity.
Defined.

(** A nested call is a call of its own: an operator whose [execute]
    invokes another operator moves the counter by two. *)
Lemma nested_call_counts_twice :
  Context.num_changes
    (context (fst (Operator.__call__ nesting_op 1%float [] ∅ fresh_world))) = 2.
Proof. reflexivity. Qed.

(** C1, where the code departs from it: when the call meets the contracts,
    [poll] returns a true value and [execute] returns ["FINISHED"] or
    ["CANCELLED"], [__call__] reaches the end of its body without a
    [return] and yields [None], not the status. *)
Theorem call_valid_status_returns_None (self : Operator.t) (now : float)
    (args : list value) (kwargs : gmap string value) (w : world) (s : string) :
  valid_call self args kwargs ->
  poll_succeeds self (counted (context w)) args kwargs ->
  snd (Operator.execute self
         (fst (Operator.poll self (counted (context w)) args kwargs)) args kwargs)
  = Ret (VStr s) ->
  s = "FINISHED" \/ s = "CANCELLED" ->
  snd (Operator.__call__ self now args kwargs w) = Ret VNone.
Proof.
  intros Hv Hp Hex Hs. rewrite (call_valid self now args kwargs w Hv).
  rewrite poll_and_execute_poll_succeeds by exact Hp.
  cbv zeta. cbn [context]. rewrite Hex.
  assert (Hin : py_in_strs (VStr s) ["FINISHED"; "CANCELLED"] = true).
  { apply py_in_strs_status. destruct Hs as [-> | ->]; auto. }
  rewrite Hin. reflexivity.
Qed.

Lemma call_valid_status_returns_None_witness :
  snd (Operator.execute plain_op (counted Context.__init__) [] ∅) = Ret (VStr "FINISHED") /\
  snd (Operator.__call__ plain_op 1%float [] ∅ fresh_world) = Ret VNone.
Proof.
  split; [reflexivity |].
  apply (call_valid_status_returns_None plain_op 1%float [] ∅ fresh_world "FINISHED").
  - repeat split; intros a [].
  - exists (VBool true). split; reflexivity.
  - reflexivity.
  - left. reflexivity.
Defined.

(** An exception raised by [execute] is not caught: it leaves [__call__]. *)
Lemma call_execute_fault_escapes (self : Operator.t) (now : float)
    (args : list value) (kwargs : gmap string value) (w : world) (e : exn) :
  valid_call self args kwargs ->
  poll_succeeds self (counted (context w)) args kwargs ->
  snd (Operator.execute self
         (fst (Operator.poll self (counted (context w)) args kwargs)) args kwargs)
  = Raise e ->
  snd (Operator.__call__ self now args kwargs w) = Raise e.
Proof.
  intros Hv Hp Hex. rewrite (call_valid self now args kwargs w Hv).
  rewrite poll_and_execute_poll_succeeds by exact Hp.
  cbv zeta. cbn [context]. rewrite Hex. reflexivity.
Qed.

Example call_execute_fault_escapes_example :
  snd (Operator.__call__ faulty_execute_op 1%float [] ∅ fresh_world)
  = Raise (Fault "no clip").
Proof.
  apply (call_execute_fault_escapes faulty_execute_op 1%float [] ∅ fresh_world).
  - repeat split; intros a [].
  - exists (VBool true). split; reflexivity.
  - reflexivity.
Qed.

(** In every branch but the one of C1 the call returns one of the two
    statuses, provided [execute] does not raise. *)
Lemma call_other_branches_return_status (self : Operator.t) (now : float)
    (args : list value) (kwargs : gmap string value) (w : world) :
  let c1 := fst (Operator.poll self (counted (context w)) args kwargs) in
  snd (Operator.__call__ self now args kwargs w) = Ret (VStr "FINISHED") \/
  snd (Operator.__call__ self now args kwargs w) = Ret (VStr "CANCELLED") \/
  (valid_call self args kwargs /\
   poll_succeeds self (counted (context w)) args kwargs /\
   ((exists e, snd (Operator.execute self c1 args kwargs) = Raise e) \/
    (exists s, snd (Operator.execute self c1 args kwargs) = Ret (VStr s) /\
               (s = "FINISHED" \/ s = "CANCELLED")))).
Proof.
  cbv zeta.
  destruct (valid_or_invalid_call self args kwargs) as [Hv | Hinv].
  - destruct (poll_fails_or_succeeds self (counted (context w)) args kwargs) as [Hp | Hp].
    + right. left. rewrite (call_valid self now args kwargs w Hv).
      rewrite poll_and_execute_poll_fails by exact Hp. reflexivity.
    + destruct (snd (Operator.execute self
                  (fst (Operator.poll self (counted (context w)) args kwargs))
                  args kwargs)) as [val | e] eqn:Hex.
      * destruct (py_in_strs val ["FINISHED"; "CANCELLED"]) eqn:Hin.
        -- right. right. split; [exact Hv | split; [exact Hp |]]. right.
           apply py_in_strs_status in Hin.
           destruct Hin as [-> | ->]; eexists; split; eauto.
        -- left. rewrite (call_valid self now args kwargs w Hv).
           rewrite poll_and_execute_poll_succeeds by exact Hp.
           cbv zeta. cbn [context]. rewrite Hex, Hin. reflexivity.
      * right. right. split; [exact Hv | split; [exact Hp |]]. left.
        exists e. reflexivity.
  - right. left. destruct (call_invalid self now args kwargs w Hinv) as [msg ->].
    reflexivity.
Qed.

(** ** Resolving names *)

Section DynamicLookupFacts.
Context {Obj V : Type} (lookup : Obj -> string -> option V) (message : string -> string).

(** A name that the normal lookup finds is returned, at any depth. *)
Lemma getattr_present (depth : nat) (self : Obj) (attr : string) (v : V) :
  lookup self attr = Some v ->
  getattr lookup message depth self attr = Ret v.
Proof. intros H. destruct depth; simpl; rewrite H; reflexivity. Qed.

(** For a name that the normal lookup does not find, [__getattr__] asks
    [hasattr], which asks [__getattr__]: the frames run out, and the
    [RecursionError] passes through every [hasattr] on its way up. *)
Lemma getattr_absent (depth : nat) (self : Obj) (attr : string) :
  lookup self attr = None ->
  getattr lookup message depth self attr = Raise RecursionError.
Proof.
  intros H. induction depth as [| depth IH]; simpl; rewrite H.
  - reflexivity.
  - unfold getattr_body, hasattr. rewrite IH. reflexivity.
Qed.

Lemma dunder_getattr_absent (depth : nat) (self : Obj) (attr : string) :
  lookup self attr = None ->
  __getattr__ lookup message depth self attr = Raise RecursionError.
Proof.
  intros H. destruct depth as [| depth]; simpl.
  - reflexivity.
  - unfold getattr_body, hasattr. rewrite (getattr_absent depth self attr H).
    reflexivity.
Qed.
End DynamicLookupFacts.

Section ObjectLookupFacts.
Context {V : Type} (methods : list string) (builtin : builtin_names)
  (from_class : string -> V).

(** The normal lookup fails exactly for the names that neither the
    instance holds nor the class provides. *)
Lemma object_getattribute_None_iff (dict : gmap string V) (attr : string) :
  object_getattribute methods builtin from_class dict attr = None <->
  dict !! attr = None /\ class_lookup methods builtin attr = None.
Proof.
  unfold object_getattribute.
  destruct (class_lookup methods builtin attr) as [[|] |];
    destruct (dict !! attr); split; try discriminate; try tauto;
    intros [H1 H2]; discriminate.
Qed.
End ObjectLookupFacts.

(** C4, where the code departs from it: an operator collection and the
    operator registry answer a name they do not hold with their
    [AttributeError]; a scene and a property collection answer a name
    that they do not hold and that their class does not provide with
    [RecursionError], at every recursion limit, and never with the
    [AttributeError] that their [__getattr__] spells out. *)
Theorem absent_name_resolution :
  (forall (self : OpCollection.t) (attr : string),
     OpCollection.operators self !! attr = None ->
     OpCollection.__getattr__ self attr
     = Raise (AttributeError ("OpCollection has no attribute " ++ attr))) /\
  (forall (self : OpsModule.t) (attr : string),
     OpsModule.colls self !! attr = None ->
     OpsModule.__getattr__ self attr
     = Raise (AttributeError ("OpsModule has no attribute " ++ attr))) /\
  (forall (builtin : builtin_names) (depth : nat) (self : Scene.t) (attr : string),
     Scene.__dict__ self !! attr = None ->
     class_lookup Scene.methods builtin attr = None ->
     Scene.getattr builtin depth self attr = Raise RecursionError /\
     Scene.__getattr__ builtin depth self attr = Raise RecursionError) /\
  (forall (builtin : builtin_names) (depth : nat) (self : PropCollection.t)
          (attr : string),
     PropCollection.__dict__ self !! attr = None ->
     class_lookup PropCollection.methods builtin attr = None ->
     PropCollection.getattr builtin depth self attr = Raise RecursionError /\
     PropCollection.__getattr__ builtin depth self attr = Raise RecursionError).
Proof.
  refine (conj _ (conj _ (conj _ _))).
  - intros self attr H. unfold OpCollection.__getattr__. rewrite H. reflexivity.
  - intros self attr H. unfold OpsModule.__getattr__. rewrite H. reflexivity.
  - intros builtin depth self attr Hd Hc.
    assert (H : Scene.lookup builtin self attr = None)
      by (apply object_getattribute_None_iff; split; assumption).
    split.
    + apply (getattr_absent (Scene.lookup builtin)). exact H.
    + apply (dunder_getattr_absent (Scene.lookup builtin)). exact H.
  - intros builtin depth self attr Hd Hc.
    assert (H : PropCollection.lookup builtin self attr = None)
      by (apply object_getattribute_None_iff; split; assumption).
    split.
    + apply (getattr_absent (PropCollection.lookup builtin)). exact H.
    + apply (dunder_getattr_absent (PropCollection.lookup builtin)). exact H.
Qed.

Lemma absent_name_resolution_witness :
  OpCollection.__getattr__ sample_OpCollection "render"
  = Raise (AttributeError "OpCollection has no attribute render") /\
  OpsModule.__getattr__ sample_OpsModule "export"
  = Raise (AttributeError "OpsModule has no attribute export") /\
  Scene.getattr cpython_builtin recursion_limit new_Scene "output"
  = Raise RecursionError /\
  PropCollection.getattr cpython_builtin recursion_limit PropCollection.__init__ "x_res"
  = Raise RecursionError.
Proof.
  refine (conj _ (conj _ (conj _ _))).
  - exact (proj1 absent_name_resolution sample_OpCollection "render" eq_refl).
  - exact (proj1 (proj2 absent_name_resolution) sample_OpsModule "export" eq_refl).
  - exact (proj1 (proj1 (proj2 (proj2 absent_name_resolution))
                    cpython_builtin recursion_limit new_Scene "output" eq_refl eq_refl)).
  - exact (proj1 (proj2 (proj2 (proj2 absent_name_resolution))
                    cpython_builtin recursion_limit PropCollection.__init__ "x_res"
                    eq_refl eq_refl)).
Defined.

(** Names that are held, and names that the class provides, resolve. *)
Lemma present_name_resolution :
  OpCollection.__getattr__ sample_OpCollection "plain" = Ret plain_op /\
  OpsModule.__getattr__ sample_OpsModule "test" = Ret sample_OpCollection /\
  Scene.getattr cpython_builtin recursion_limit new_Scene "is_dirty"
  = Ret (Scene.Bool false) /\
  Scene.getattr cpython_builtin recursion_limit new_Scene "__doc__"
  = Ret (Scene.FromClass "__doc__") /\
  Scene.getattr cpython_builtin recursion_limit new_Scene "__class__"
  = Ret (Scene.FromClass "__class__") /\
  Scene.getattr cpython_builtin recursion_limit new_Scene "__init__"
  = Ret (Scene.FromClass "__init__").
Proof. repeat split. Qed.

(** * Further properties of the code *)

(** ** Bounded properties beyond one [set] *)

Lemma xint_lt_irrefl (x : xint) : xint_lt x x = false.
Proof. destruct x; simpl; auto. apply Z.ltb_irrefl. Qed.

Lemma float_ltb_irrefl (x : float) : PrimFloat.ltb x x = false.
Proof.
  rewrite ltb_spec. unfold SFltb.
  destruct (SFcompare_refl (Prim2SF x)) as [-> | ->]; reflexivity.
Qed.

(** On the specification floats, [a < b] and [not (c < b)] give [a < c]
    when [c] is not a NaN. *)
Lemma SFcompare_lt_not_lt_trans (a b c : spec_float) :
  SFltb a b = true -> SFltb c b = false -> c <> S754_nan -> SFltb a c = true.
Proof.
  unfold SFltb.
  destruct a as [s | s | | s m e], b as [s' | s' | | s' m' e'],
    c as [s'' | s'' | | s'' m'' e'']; simpl;
    try destruct s; try destruct s'; try destruct s''; simpl;
    try discriminate; try reflexivity; try congruence; cmp_cases.
Qed.

Lemma SFltb_neg_infinity (x : spec_float) : SFltb x (S754_infinity true) = false.
Proof. destruct x as [s | s | | s m e]; try destruct s; reflexivity. Qed.

Lemma SFltb_infinity (x : spec_float) : SFltb (S754_infinity false) x = false.
Proof. destruct x as [s | s | | s m e]; try destruct s; reflexivity. Qed.

Section SetAgain.
Context {A : Type} `{PyNum A}.
Hypothesis lt_irrefl : forall x : A, py_lt x x = false.

(** Storing the value just read back changes nothing, whatever the bounds. *)
Lemma NumProp_set_get_fixpoint (p : NumProp.t A) (v : A) :
  NumProp.set (NumProp.set p v) (NumProp.get (NumProp.set p v)) = NumProp.set p v.
Proof.
  unfold NumProp.set, NumProp.get, py_gt. simpl.
  destruct (py_lt v (NumProp.min p)) eqn:Hlt.
  - destruct (py_lt (NumProp.max p) (NumProp.min p)) eqn:Hinv.
    + rewrite Hinv, Hinv. reflexivity.
    + rewrite lt_irrefl, Hinv. reflexivity.
  - destruct (py_lt (NumProp.max p) v) eqn:Hgt.
    + destruct (py_lt (NumProp.max p) (NumProp.min p)) eqn:Hinv.
      * rewrite Hinv. reflexivity.
      * rewrite lt_irrefl. reflexivity.
    + rewrite Hlt, Hgt. reflexivity.
Qed.
End SetAgain.

Section SetSequence.
Context {A : Type} `{PyNum A}.

(** [set] reads the bounds only, so a second [set] forgets the first. *)
Lemma NumProp_set_set (p : NumProp.t A) (a b : A) :
  NumProp.set (NumProp.set p a) b = NumProp.set p b.
Proof. reflexivity. Qed.

Lemma NumProp_fold_set (vs : list A) (p : NumProp.t A) (v : A) :
  fold_left NumProp.set (vs ++ [v])%list p = NumProp.set p v.
Proof.
  revert p. induction vs as [| a vs IH]; intros p; simpl.
  - reflexivity.
  - rewrite IH. apply NumProp_set_set.
Qed.
End SetSequence.

(** X1. [set] is idempotent on integer and on float properties: writing back
    the value that [get] returns after a [set] leaves the property as it
    is, for every input and every pair of bounds. *)
Theorem NumProp_set_idempotent :
  (forall (p : IntProp.t) (v : xint),
     IntProp.set (IntProp.set p v) (IntProp.get (IntProp.set p v)) = IntProp.set p v) /\
  (forall (p : FloatProp.t) (v : float),
     FloatProp.set (FloatProp.set p v) (FloatProp.get (FloatProp.set p v))
     = FloatProp.set p v).
Proof.
  split; intros p v.
  - exact (@NumProp_set_get_fixpoint xint xint_PyNum xint_lt_irrefl p v).
  - exact (@NumProp_set_get_fixpoint float float_PyNum float_ltb_irrefl p v).
Qed.

(** X2. With the bounds inverted ([max < min]), [set] stores [max] whatever it
    is given: every integer, and every float that is not a NaN. *)
Theorem NumProp_set_inverted_bounds :
  (forall (p : IntProp.t) (v : xint),
     xint_lt (NumProp.max p) (NumProp.min p) = true ->
     IntProp.get (IntProp.set p v) = NumProp.max p) /\
  (forall (p : FloatProp.t) (v : float),
     PrimFloat.ltb (NumProp.max p) (NumProp.min p) = true ->
     is_nan v = false ->
     FloatProp.get (FloatProp.set p v) = NumProp.max p).
Proof.
  split.
  - intros p v Hinv.
    unfold IntProp.get, IntProp.set, NumProp.get, NumProp.set, py_gt. simpl.
    destruct (xint_lt v (NumProp.min p)) eqn:Hlt.
    + rewrite Hinv. reflexivity.
    + assert (Hgt : xint_lt (NumProp.max p) v = true).
      { destruct (NumProp.max p), (NumProp.min p), v; simpl in *;
          try discriminate; try reflexivity; lia. }
      rewrite Hgt. reflexivity.
  - intros p v Hinv Hv.
    unfold FloatProp.get, FloatProp.set, NumProp.get, NumProp.set, py_gt. simpl.
    destruct (PrimFloat.ltb v (NumProp.min p)) eqn:Hlt.
    + rewrite Hinv. reflexivity.
    + assert (Hgt : PrimFloat.ltb (NumProp.max p) v = true).
      { rewrite ltb_spec in *.
        apply (SFcompare_lt_not_lt_trans _ _ _ Hinv Hlt).
        apply float_ordered_spec. unfold float_ordered. rewrite Hv. reflexivity. }
      rewrite Hgt. reflexivity.
Qed.

Lemma NumProp_set_inverted_bounds_witness :
  IntProp.get (IntProp.set (IntProp.__init__ "n" "" (Int 0) (Some (Int 10)) (Some (Int 0)))
                 (Int 5)) = Int 0 /\
  FloatProp.get (FloatProp.set (FloatProp.__init__ "f" "" 0%float (Some 10%float) (Some 0%float))
                   20%float) = 0%float.
Proof.
  split.
  - exact (proj1 NumProp_set_inverted_bounds
             (IntProp.__init__ "n" "" (Int 0) (Some (Int 10)) (Some (Int 0)))
             (Int 5) eq_refl).
  - exact (proj2 NumProp_set_inverted_bounds
             (FloatProp.__init__ "f" "" 0%float (Some 10%float) (Some 0%float))
             20%float eq_refl eq_refl).
Defined.

(** X3. A property constructed without bounds never clamps: [set] stores every
    input as it is, a float NaN and the infinities included. *)
Theorem NumProp_unbounded_set_stores_input :
  (forall (name description : string) (d v : xint),
     IntProp.get (IntProp.set (IntProp.__init__ name description d None None) v) = v) /\
  (forall (name description : string) (d v : float),
     FloatProp.get (FloatProp.set (FloatProp.__init__ name description d None None) v) = v).
Proof.
  split; intros name description d v.
  - destruct v; reflexivity.
  - unfold FloatProp.get, FloatProp.set, FloatProp.__init__,
      NumProp.get, NumProp.set, NumProp.__init__, py_gt. simpl.
    assert (H1 : PrimFloat.ltb v neg_infinity = false).
    { rewrite ltb_spec. apply SFltb_neg_infinity. }
    assert (H2 : PrimFloat.ltb infinity v = false).
    { rewrite ltb_spec. apply SFltb_infinity. }
    rewrite H1, H2. reflexivity.
Qed.

(** X4. After any sequence of [set] calls the property is what the last
    call alone would have made it, whatever the bounds and the inputs; so
    with [min <= max] and a last input that is not a NaN the value lies
    within the bounds, whatever was stored before. *)
Theorem NumProp_set_sequence :
  (forall (p : IntProp.t) (vs : list xint) (v : xint),
     fold_left IntProp.set (vs ++ [v])%list p = IntProp.set p v) /\
  (forall (p : FloatProp.t) (vs : list float) (v : float),
     fold_left FloatProp.set (vs ++ [v])%list p = FloatProp.set p v) /\
  (forall (p : IntProp.t) (vs : list xint) (v : xint),
     xint_le (NumProp.min p) (NumProp.max p) = true ->
     xint_le (NumProp.min p) (IntProp.get (fold_left IntProp.set (vs ++ [v])%list p)) = true /\
     xint_le (IntProp.get (fold_left IntProp.set (vs ++ [v])%list p)) (NumProp.max p) = true) /\
  (forall (p : FloatProp.t) (vs : list float) (v : float),
     PrimFloat.leb (NumProp.min p) (NumProp.max p) = true ->
     is_nan v = false ->
     PrimFloat.leb (NumProp.min p)
       (FloatProp.get (fold_left FloatProp.set (vs ++ [v])%list p)) = true /\
     PrimFloat.leb (FloatProp.get (fold_left FloatProp.set (vs ++ [v])%list p))
       (NumProp.max p) = true).
Proof.
  assert (EI : forall (p : IntProp.t) vs v,
            fold_left IntProp.set (vs ++ [v])%list p = IntProp.set p v)
    by (intros p vs v; exact (@NumProp_fold_set xint xint_PyNum vs p v)).
  assert (EF : forall (p : FloatProp.t) vs v,
            fold_left FloatProp.set (vs ++ [v])%list p = FloatProp.set p v)
    by (intros p vs v; exact (@NumProp_fold_set float float_PyNum vs p v)).
  refine (conj EI (conj EF (conj _ _))).
  - intros p vs v Hb. rewrite EI.
    exact (@NumProp_set_bounds xint xint_PyNum (fun _ => true) xint_PyNumLaws p v Hb eq_refl).
  - intros p vs v Hb Hv. rewrite EF.
    apply (@NumProp_set_bounds float float_PyNum float_ordered float_PyNumLaws p v Hb).
    unfold float_ordered. rewrite Hv. reflexivity.
Qed.

Lemma NumProp_set_sequence_witness :
  PrimFloat.leb 0%float
    (FloatProp.get (fold_left FloatProp.set [nan; 50%float; 7%float] sample_FloatProp))
  = true /\
  xint_le (IntProp.get (fold_left IntProp.set [Int (-4); Int 12] sample_IntProp)) (Int 10)
  = true.
Proof.
  split.
  - exact (proj1 (proj2 (proj2 (proj2 NumProp_set_sequence)) sample_FloatProp
                    [nan; 50%float] 7%float eq_refl eq_refl)).
  - exact (proj2 (proj1 (proj2 (proj2 NumProp_set_sequence)) sample_IntProp
                    [Int (-4)] (Int 12) eq_refl)).
Defined.

(** ** Reading an enumeration after [set] *)

Lemma py_index_nonneg {A : Type} (l : list A) (i : Z) (a : A) :
  0 <= i -> nth_error l (Z.to_nat i) = Some a -> py_index l i = Ret a.
Proof.
  intros Hi Hnth.
  assert (Hlen : (Z.to_nat i < length l)%nat)
    by (apply nth_error_Some; rewrite Hnth; discriminate).
  destruct (py_index_in_range l i) as [b [Hb Hidx]]; [lia |].
  destruct (Z.ltb_spec i 0); [lia |].
  rewrite Hidx. congruence.
Qed.

(** X5. After [set(i)] with [i] the position of an item, [get] returns the id
    of that item. *)
Theorem EnumProp_get_set_selects (p : EnumProp.t) (i : Z) (it : item) :
  0 <= i ->
  nth_error (EnumProp.items p) (Z.to_nat i) = Some it ->
  EnumProp.get (EnumProp.set p i) = Ret (fst it).
Proof.
  intros Hi Hnth.
  assert (Hlen : (Z.to_nat i < length (EnumProp.items p))%nat)
    by (apply nth_error_Some; rewrite Hnth; discriminate).
  unfold EnumProp.get. rewrite EnumProp_set_items, EnumProp_set_idx.
  replace (Z.min i (Z.of_nat (length (EnumProp.items p)) - 1)) with i by lia.
  rewrite (py_index_nonneg _ _ _ Hi Hnth). reflexivity.
Qed.

Lemma EnumProp_get_set_selects_witness :
  EnumProp.get (EnumProp.set sample_EnumProp 1) = Ret "b".
Proof.
  apply (EnumProp_get_set_selects sample_EnumProp 1 ("b", ["B"])).
  - lia.
  - reflexivity.
Defined.

(** X6. [get] after [set(i)] returns an id exactly when the enumeration has
    items and [i >= -len(items)]; otherwise it raises [IndexError]. *)
Theorem EnumProp_get_set_succeeds_iff (p : EnumProp.t) (i : Z) :
  ((exists s, EnumProp.get (EnumProp.set p i) = Ret s) <->
   EnumProp.items p <> [] /\ - Z.of_nat (length (EnumProp.items p)) <= i) /\
  ((forall s, EnumProp.get (EnumProp.set p i) <> Ret s) ->
   EnumProp.get (EnumProp.set p i) = Raise IndexError).
Proof.
  unfold EnumProp.get. rewrite EnumProp_set_items, EnumProp_set_idx.
  set (l := EnumProp.items p). set (n := Z.of_nat (length l)).
  assert (Hcases : (l <> [] /\ - n <= i) \/ (l = [] \/ i < - n)).
  { destruct l; [right; left; reflexivity |].
    destruct (Z.le_gt_cases (- n) i); [left; split; [discriminate | assumption] | right; right; lia]. }
  destruct Hcases as [[Hne Hi] | Hbad].
  - assert (Hn : 1 <= n) by (subst n; destruct l; [congruence | simpl; lia]).
    destruct (py_index_in_range l (Z.min i (n - 1))) as [it [_ Hidx]]; [fold n; lia |].
    fold n in Hidx. rewrite Hidx. split.
    + split; [intros _; auto | intros _; eauto].
    + intros H. destruct (H (fst it) eq_refl).
  - assert (Hout : py_index l (Z.min i (n - 1)) = Raise IndexError).
    { apply py_index_out_of_range. fold n.
      destruct Hbad as [Hl | Hi]; [| lia].
      subst n. rewrite Hl. simpl. lia. }
    rewrite Hout. split; [| reflexivity].
    split; [intros [s Hs]; discriminate |].
    intros [Hne Hi]. destruct Hbad as [Hl | Hlt]; [contradiction | lia].
Qed.

(** X7. Every index from [len(items)-1] upwards, and the index [-1], select
    the last item. *)
Theorem EnumProp_get_set_last (p : EnumProp.t) (i : Z) (it : item) :
  nth_error (EnumProp.items p) (length (EnumProp.items p) - 1) = Some it ->
  Z.of_nat (length (EnumProp.items p)) - 1 <= i ->
  EnumProp.get (EnumProp.set p i) = Ret (fst it) /\
  EnumProp.get (EnumProp.set p (-1)) = Ret (fst it).
Proof.
  intros Hnth Hi.
  set (l := EnumProp.items p) in *.
  assert (Hn : (1 <= length l)%nat).
  { destruct l; [discriminate | simpl; lia]. }
  unfold EnumProp.get. rewrite !EnumProp_set_items, !EnumProp_set_idx. fold l.
  replace (Z.min i (Z.of_nat (length l) - 1)) with (Z.of_nat (length l) - 1) by lia.
  replace (Z.min (-1) (Z.of_nat (length l) - 1)) with (-1) by lia.
  split.
  - rewrite (py_index_nonneg l (Z.of_nat (length l) - 1) it); [reflexivity | lia |].
    replace (Z.to_nat (Z.of_nat (length l) - 1)) with (length l - 1)%nat by lia.
    exact Hnth.
  - destruct (py_index_in_range l (-1)) as [b [Hb Hidx]]; [lia |].
    rewrite Hidx. simpl in Hb.
    replace (Z.to_nat (-1 + Z.of_nat (length l))) with (length l - 1)%nat in Hb by lia.
    congruence.
Qed.

Lemma EnumProp_get_set_last_witness :
  EnumProp.get (EnumProp.set sample_EnumProp 5) = Ret "c" /\
  EnumProp.get (EnumProp.set sample_EnumProp (-1)) = Ret "c".
Proof.
  apply (EnumProp_get_set_last sample_EnumProp 5 ("c", ["C"])).
  - reflexivity.
  - simpl. lia.
Defined.

Lemma EnumProp_get_set_succeeds_iff_witness :
  (exists s, EnumProp.get (EnumProp.set sample_EnumProp (-3)) = Ret s) /\
  EnumProp.get (EnumProp.set sample_EnumProp (-4)) = Raise IndexError.
Proof.
  split.
  - apply (proj2 (proj1 (EnumProp_get_set_succeeds_iff sample_EnumProp (-3)))).
    split; [discriminate | simpl; lia].
  - apply (proj2 (EnumProp_get_set_succeeds_iff sample_EnumProp (-4))).
    intros s. discriminate.
Defined.

(** ** More on the operator call protocol *)

(** Each loop stops at the first name of its tuple that breaks the
    contract, and reports that name. *)
Lemma for_kwargs_include_first_missing (self : Operator.t) (now : float)
    (pre post : list string) (a : string) (kwargs : gmap string value) (w : world) :
  (forall b, In b pre -> kwargs !! b <> None) ->
  kwargs !! a = None ->
  Operator.for_kwargs_include self now (pre ++ a :: post)%list kwargs w =
  (mkWorld
     (reported now ("Must include kwarg " ++ a ++ " in Operator " ++ Operator.idname self)
        (context w))
     (calls w),
   Ret (Some (VStr "CANCELLED"))).
Proof.
  intros Hpre Ha. induction pre as [| b pre IH]; simpl.
  - rewrite Ha. reflexivity.
  - destruct (kwargs !! b) eqn:E.
    + apply IH. intros c Hc. apply Hpre. right. exact Hc.
    + destruct (Hpre b (or_introl eq_refl) E).
Qed.

Lemma for_kwargs_exclude_first_given (self : Operator.t) (now : float)
    (pre post : list string) (a : string) (kwargs : gmap string value) (w : world) :
  (forall b, In b pre -> kwargs !! b = None) ->
  kwargs !! a <> None ->
  Operator.for_kwargs_exclude self now (pre ++ a :: post)%list kwargs w =
  (mkWorld
     (reported now ("Must exclude kwarg " ++ a ++ " in Operator " ++ Operator.idname self)
        (context w))
     (calls w),
   Ret (Some (VStr "CANCELLED"))).
Proof.
  intros Hpre Ha. induction pre as [| b pre IH]; simpl.
  - destruct (kwargs !! a); [reflexivity | congruence].
  - rewrite (Hpre b (or_introl eq_refl)).
    apply IH. intros c Hc. apply Hpre. right. exact Hc.
Qed.

(** X8. The argument count is checked before anything else: too few
    arguments are reported as such whatever else is wrong with the call,
    and too many are reported when there are not too few. *)
Theorem call_checks_argument_count_first (self : Operator.t) (now : float)
    (args : list value) (kwargs : gmap string value) (w : world) :
  (Operator.too_few self args = true ->
   Operator.__call__ self now args kwargs w =
   (mkWorld
      (reported now ("Too few arguments in Operator " ++ Operator.idname self)
         (counted (context w)))
      (calls w),
    Ret (VStr "CANCELLED"))) /\
  (Operator.too_few self args = false ->
   Operator.too_many self args = true ->
   Operator.__call__ self now args kwargs w =
   (mkWorld
      (reported now ("Too many arguments in Operator " ++ Operator.idname self)
         (counted (context w)))
      (calls w),
    Ret (VStr "CANCELLED"))).
Proof.
  split.
  - intros Hf. unfold Operator.__call__, bind, modify_context. simpl.
    rewrite Hf. reflexivity.
  - intros Hf Hm. unfold Operator.__call__, bind, modify_context. simpl.
    rewrite Hf, Hm. reflexivity.
Qed.

Lemma call_checks_argument_count_first_witness :
  (* one argument, and the required keyword is missing as well *)
  Context.last_report
    (context (fst (Operator.__call__ strict_op 1%float [VInt 1] ∅ fresh_world)))
  = Some ("ERROR", "Too few arguments in Operator test.strict") /\
  (* three arguments, and the forbidden keyword is given as well *)
  Context.last_report
    (context (fst (Operator.__call__ strict_op 1%float [VInt 1; VInt 2; VInt 3]
                     {[ "force" := VBool true ]} fresh_world)))
  = Some ("ERROR", "Too many arguments in Operator test.strict").
Proof.
  split.
  - exact (f_equal (fun r => Context.last_report (context (fst r)))
             (proj1 (call_checks_argument_count_first strict_op 1%float [VInt 1] ∅ fresh_world)
                eq_refl)).
  - exact (f_equal (fun r => Context.last_report (context (fst r)))
             (proj2 (call_checks_argument_count_first strict_op 1%float
                       [VInt 1; VInt 2; VInt 3] {[ "force" := VBool true ]} fresh_world)
                eq_refl eq_refl)).
Defined.

(** X9. With an acceptable argument count, the keywords are checked in the
    order of the two tuples: the first required keyword that is missing is
    the one reported, even when a forbidden keyword is given too; when none
    is missing, the first forbidden keyword that is given is reported. *)
Theorem call_reports_first_keyword_violation (self : Operator.t) (now : float)
    (args : list value) (kwargs : gmap string value) (w : world)
    (pre post : list string) (a : string) :
  Operator.too_few self args = false ->
  Operator.too_many self args = false ->
  (Operator.kwargs_include self = (pre ++ a :: post)%list ->
   (forall b, In b pre -> kwargs !! b <> None) ->
   kwargs !! a = None ->
   Operator.__call__ self now args kwargs w =
   (mkWorld
      (reported now
         ("Must include kwarg " ++ a ++ " in Operator " ++ Operator.idname self)
         (counted (context w)))
      (calls w),
    Ret (VStr "CANCELLED"))) /\
  ((forall b, In b (Operator.kwargs_include self) -> kwargs !! b <> None) ->
   Operator.kwargs_exclude self = (pre ++ a :: post)%list ->
   (forall b, In b pre -> kwargs !! b = None) ->
   kwargs !! a <> None ->
   Operator.__call__ self now args kwargs w =
   (mkWorld
      (reported now
         ("Must exclude kwarg " ++ a ++ " in Operator " ++ Operator.idname self)
         (counted (context w)))
      (calls w),
    Ret (VStr "CANCELLED"))).
Proof.
  intros Hf Hm. split.
  - intros Hincl Hpre Ha. unfold Operator.__call__, bind, modify_context. simpl.
    rewrite Hf, Hm, Hincl.
    rewrite (for_kwargs_include_first_missing self now pre post a kwargs _ Hpre Ha).
    reflexivity.
  - intros Hall Hexcl Hpre Ha. unfold Operator.__call__, bind, modify_context. simpl.
    rewrite Hf, Hm.
    destruct (for_kwargs_include_cases self now (Operator.kwargs_include self) kwargs
                (mkWorld (Context.set_num_changes (Context.num_changes (context w) + 1)
                            (context w)) (calls w)))
      as [[_ ->] | [[b [Hb Hmiss]] _]]; [| destruct (Hall b Hb Hmiss)].
    rewrite Hexcl.
    rewrite (for_kwargs_exclude_first_given self now pre post a kwargs _ Hpre Ha).
    reflexivity.
Qed.

Lemma call_reports_first_keyword_violation_witness :
  (* src is given, dst is missing, force is given *)
  Context.last_report
    (context (fst (Operator.__call__ copy_op 1%float []
                     (<[ "force" := VBool true ]> {[ "src" := VStr "a" ]}) fresh_world)))
  = Some ("ERROR", "Must include kwarg dst in Operator clip.copy") /\
  (* src and dst are given, and so is force *)
  Context.last_report
    (context (fst (Operator.__call__ copy_op 1%float []
                     (<[ "force" := VBool true ]>
                        (<[ "dst" := VStr "b" ]> {[ "src" := VStr "a" ]})) fresh_world)))
  = Some ("ERROR", "Must exclude kwarg force in Operator clip.copy").
Proof.
  split.
  - refine (f_equal (fun r => Context.last_report (context (fst r)))
              (proj1 (call_reports_first_keyword_violation copy_op 1%float []
                        (<[ "force" := VBool true ]> {[ "src" := VStr "a" ]}) fresh_world
                        ["src"] [] "dst" eq_refl eq_refl) eq_refl _ eq_refl)).
    intros b [<- | []]. vm_compute. discriminate.
  - refine (f_equal (fun r => Context.last_report (context (fst r)))
              (proj2 (call_reports_first_keyword_violation copy_op 1%float []
                        (<[ "force" := VBool true ]>
                           (<[ "dst" := VStr "b" ]> {[ "src" := VStr "a" ]})) fresh_world
                        ["dry_run"] [] "force" eq_refl eq_refl) _ eq_refl _ _)).
    + intros b [<- | [<- | []]]; vm_compute; discriminate.
    + intros b [<- | []]. vm_compute. reflexivity.
    + vm_compute. discriminate.
Defined.

(** X10. The hooks a call enters: none when a contract is broken; [poll] alone
    when it raises or returns a false value; [poll] and then [execute],
    each once, when [poll] returns a true value.  [execute] never runs
    without [poll] before it. *)
Theorem call_enters_hooks_in_order (self : Operator.t) (now : float)
    (args : list value) (kwargs : gmap string value) (w : world) :
  (invalid_call self args kwargs /\
   calls (fst (Operator.__call__ self now args kwargs w)) = calls w) \/
  (valid_call self args kwargs /\
   poll_fails self (counted (context w)) args kwargs /\
   calls (fst (Operator.__call__ self now args kwargs w)) = (calls w ++ [Poll])%list) \/
  (valid_call self args kwargs /\
   poll_succeeds self (counted (context w)) args kwargs /\
   calls (fst (Operator.__call__ self now args kwargs w))
   = (calls w ++ [Poll; Execute])%list).
Proof.
  destruct (valid_or_invalid_call self args kwargs) as [Hv | Hinv].
  - right.
    destruct (poll_fails_or_succeeds self (counted (context w)) args kwargs) as [Hp | Hp].
    + left. split; [exact Hv | split; [exact Hp |]].
      rewrite (call_valid self now args kwargs w Hv).
      rewrite poll_and_execute_poll_fails by exact Hp. reflexivity.
    + right. split; [exact Hv | split; [exact Hp |]].
      rewrite (call_valid self now args kwargs w Hv).
      rewrite poll_and_execute_poll_succeeds by exact Hp.
      cbv zeta. cbn [context].
      destruct (snd (Operator.execute self _ args kwargs)) as [val | e];
        [destruct (py_in_strs val ["FINISHED"; "CANCELLED"]) |];
        cbn [fst calls]; rewrite <- app_assoc; reflexivity.
  - left. split; [exact Hinv |].
    destruct (call_invalid self now args kwargs w Hinv) as [msg ->]. reflexivity.
Qed.

(** X11. A status string comes back only together with an error: whenever the
    call returns a string, the string is ["FINISHED"] or ["CANCELLED"] and
    [last_report] is an ERROR stamped with the time of the call. *)
Theorem call_status_comes_with_error (self : Operator.t) (now : float)
    (args : list value) (kwargs : gmap string value) (w : world) (s : string) :
  snd (Operator.__call__ self now args kwargs w) = Ret (VStr s) ->
  (s = "FINISHED" \/ s = "CANCELLED") /\
  (exists msg,
     Context.last_report (context (fst (Operator.__call__ self now args kwargs w)))
     = Some ("ERROR", msg)) /\
  Context.last_report_time (context (fst (Operator.__call__ self now args kwargs w)))
  = VFloat now.
Proof.
  destruct (valid_or_invalid_call self args kwargs) as [Hv | Hinv].
  - rewrite (call_valid self now args kwargs w Hv).
    destruct (poll_fails_or_succeeds self (counted (context w)) args kwargs) as [Hp | Hp].
    + rewrite poll_and_execute_poll_fails by exact Hp. simpl.
      intros Hs. injection Hs as <-. split; [auto | split; [eauto | reflexivity]].
    + rewrite poll_and_execute_poll_succeeds by exact Hp.
      cbv zeta. cbn [context].
      destruct (snd (Operator.execute self _ args kwargs)) as [val | e];
        [| discriminate].
      destruct (py_in_strs val ["FINISHED"; "CANCELLED"]); [discriminate |].
      simpl. intros Hs. injection Hs as <-. split; [auto | split; [eauto | reflexivity]].
  - destruct (call_invalid self now args kwargs w Hinv) as [msg ->]. simpl.
    intros Hs. injection Hs as <-. split; [auto | split; [eauto | reflexivity]].
Qed.

Lemma call_status_comes_with_error_witness :
  Context.last_report_time
    (context (fst (Operator.__call__ maybe_op 7%float [] ∅ fresh_world))) = VFloat 7%float /\
  Context.last_report_time
    (context (fst (Operator.__call__ unavailable_op 7%float [] ∅ fresh_world))) = VFloat 7%float.
Proof.
  split.
  - exact (proj2 (proj2 (call_status_comes_with_error maybe_op 7%float [] ∅ fresh_world
                           "FINISHED" eq_refl))).
  - exact (proj2 (proj2 (call_status_comes_with_error unavailable_op 7%float [] ∅ fresh_world
                           "CANCELLED" eq_refl))).
Defined.

(** X12. A call that returns [None] has made no report of its own: the context
    is the one [execute] left, which [execute] received from [poll], which
    [poll] received with the counter advanced by one. *)
Theorem call_returning_None_reports_nothing (self : Operator.t) (now : float)
    (args : list value) (kwargs : gmap string value) (w : world) :
  snd (Operator.__call__ self now args kwargs w) = Ret VNone ->
  context (fst (Operator.__call__ self now args kwargs w))
  = fst (Operator.execute self
           (fst (Operator.poll self (counted (context w)) args kwargs)) args kwargs).
Proof.
  destruct (valid_or_invalid_call self args kwargs) as [Hv | Hinv].
  - rewrite (call_valid self now args kwargs w Hv).
    destruct (poll_fails_or_succeeds self (counted (context w)) args kwargs) as [Hp | Hp].
    + rewrite poll_and_execute_poll_fails by exact Hp. discriminate.
    + rewrite poll_and_execute_poll_succeeds by exact Hp.
      cbv zeta. cbn [context].
      destruct (snd (Operator.execute self _ args kwargs)) as [val | e];
        [| discriminate].
      destruct (py_in_strs val ["FINISHED"; "CANCELLED"]); [reflexivity | discriminate].
  - destruct (call_invalid self now args kwargs w Hinv) as [msg ->]. discriminate.
Qed.

Lemma call_returning_None_reports_nothing_witness :
  Context.last_report
    (context (fst (Operator.__call__ plain_op 1%float [VInt 3] ∅ fresh_world))) = None.
Proof.
  exact (f_equal Context.last_report
           (call_returning_None_reports_nothing plain_op 1%float [VInt 3] ∅ fresh_world
              eq_refl)).
Defined.

(** X13. An exception raised by [execute] is not caught: it leaves [__call__]
    as it is, after [poll] and [execute] were entered, with the counter
    advanced and with whatever the two hooks changed in the context; no
    report is made. *)
Theorem call_execute_fault_propagates (self : Operator.t) (now : float)
    (args : list value) (kwargs : gmap string value) (w : world) (e : exn) :
  valid_call self args kwargs ->
  poll_succeeds self (counted (context w)) args kwargs ->
  snd (Operator.execute self
         (fst (Operator.poll self (counted (context w)) args kwargs)) args kwargs)
  = Raise e ->
  Operator.__call__ self now args kwargs w =
  (mkWorld
     (fst (Operator.execute self
             (fst (Operator.poll self (counted (context w)) args kwargs)) args kwargs))
     (calls w ++ [Poll; Execute])%list,
   Raise e).
Proof.
  intros Hv Hp Hex. rewrite (call_valid self now args kwargs w Hv).
  rewrite poll_and_execute_poll_succeeds by exact Hp.
  cbv zeta. cbn [context calls]. rewrite Hex, <- app_assoc. reflexivity.
Qed.

Lemma call_execute_fault_propagates_witness :
  Operator.__call__ faulty_execute_op 1%float [] ∅ fresh_world =
  (mkWorld (counted Context.__init__) [Poll; Execute], Raise (Fault "no clip")).
Proof.
  apply (call_execute_fault_propagates faulty_execute_op 1%float [] ∅ fresh_world).
  - repeat split; intros a [].
  - exists (VBool true). split; reflexivity.
  - reflexivity.
Defined.

(** [report] keeps no history and touches nothing else: after two reports
    the context shows the second, exactly as if the first had not been
    made, and the scene, the render result, the change counter and the
    record of hooks are as before. *)
Lemma report_last_write_wins (self self' : Operator.t) (now now' : float)
    (type msg type' msg' : string) (w : world) :
  (Operator.report self now type msg ;; Operator.report self' now' type' msg') w
  = Operator.report self' now' type' msg' w /\
  Context.last_report (context (fst (Operator.report self now type msg w)))
  = Some (type, msg) /\
  Context.last_report_time (context (fst (Operator.report self now type msg w)))
  = VFloat now /\
  Context.scene (context (fst (Operator.report self now type msg w)))
  = Context.scene (context w) /\
  Context.render_result (context (fst (Operator.report self now type msg w)))
  = Context.render_result (context w) /\
  Context.num_changes (context (fst (Operator.report self now type msg w)))
  = Context.num_changes (context w) /\
  calls (fst (Operator.report self now type msg w)) = calls w.
Proof.
  repeat split.
Qed.

(** ** More on resolving names *)

Section DynamicLookupOutcomes.
Context {Obj V : Type} (lookup : Obj -> string -> option V) (message : string -> string).

(** The builtin [getattr] returns exactly what the instance holds. *)
Lemma getattr_Ret_iff (depth : nat) (self : Obj) (attr : string) (v : V) :
  getattr lookup message depth self attr = Ret v <-> lookup self attr = Some v.
Proof.
  split.
  - destruct (lookup self attr) as [v' |] eqn:E.
    + rewrite (getattr_present lookup message depth self attr v' E). congruence.
    + rewrite (getattr_absent lookup message depth self attr E). discriminate.
  - apply getattr_present.
Qed.

(** [__getattr__] ends in one of two ways only. *)
Lemma dunder_getattr_outcomes (depth : nat) (self : Obj) (attr : string) :
  __getattr__ lookup message depth self attr = Raise RecursionError \/
  exists v, lookup self attr = Some v /\
            __getattr__ lookup message depth self attr = Ret v.
Proof.
  destruct (lookup self attr) as [v |] eqn:E.
  - destruct depth as [| depth]; [left; reflexivity |].
    right. exists v. split; [reflexivity |].
    simpl. unfold getattr_body, hasattr.
    rewrite (getattr_present lookup message depth self attr v E). reflexivity.
  - left. apply dunder_getattr_absent. exact E.
Qed.

Lemma getattr_outcomes (depth : nat) (self : Obj) (attr : string) :
  getattr lookup message depth self attr = Raise RecursionError \/
  exists v, lookup self attr = Some v /\
            getattr lookup message depth self attr = Ret v.
Proof.
  destruct (lookup self attr) as [v |] eqn:E.
  - right. exists v. split; [reflexivity | apply getattr_present; exact E].
  - left. apply getattr_absent. exact E.
Qed.
End DynamicLookupOutcomes.

(** X14. The [raise AttributeError(...)] line of [Scene.__getattr__] and of
    [PropCollection.__getattr__] is dead code: for no object, name and
    recursion limit does [__getattr__], or a lookup that goes through it,
    end with an [AttributeError]. *)
Theorem dunder_getattr_never_raises_AttributeError
    (builtin : builtin_names) (depth : nat) (attr msg : string) :
  (forall self : Scene.t,
     Scene.__getattr__ builtin depth self attr <> Raise (AttributeError msg) /\
     Scene.getattr builtin depth self attr <> Raise (AttributeError msg)) /\
  (forall self : PropCollection.t,
     PropCollection.__getattr__ builtin depth self attr <> Raise (AttributeError msg) /\
     PropCollection.getattr builtin depth self attr <> Raise (AttributeError msg)).
Proof.
  split; intros self; split.
  - destruct (dunder_getattr_outcomes (Scene.lookup builtin) Scene.message
                depth self attr) as [H | [v [_ H]]];
      unfold Scene.__getattr__; rewrite H; discriminate.
  - destruct (getattr_outcomes (Scene.lookup builtin) Scene.message
                depth self attr) as [H | [v [_ H]]];
      unfold Scene.getattr; rewrite H; discriminate.
  - destruct (dunder_getattr_outcomes (PropCollection.lookup builtin)
                PropCollection.message depth self attr) as [H | [v [_ H]]];
      unfold PropCollection.__getattr__; rewrite H; discriminate.
  - destruct (getattr_outcomes (PropCollection.lookup builtin)
                PropCollection.message depth self attr) as [H | [v [_ H]]];
      unfold PropCollection.getattr; rewrite H; discriminate.
Qed.

(** X15. Looking a name up on a scene or on a property collection returns
    a value exactly when the normal lookup finds the name, in the instance
    dictionary or through the class, and then it returns what the normal
    lookup found, at every recursion limit: [__getattr__] adds nothing.
    For a name that the class does not provide, that is the entry of the
    instance dictionary. *)
Theorem getattr_returns_what_lookup_finds
    (builtin : builtin_names) (depth : nat) (attr : string) :
  (forall (self : Scene.t) (v : Scene.attr),
     (Scene.getattr builtin depth self attr = Ret v <->
      object_getattribute Scene.methods builtin Scene.FromClass
        (Scene.__dict__ self) attr = Some v) /\
     (class_lookup Scene.methods builtin attr = None ->
      (Scene.getattr builtin depth self attr = Ret v <->
       Scene.__dict__ self !! attr = Some v))) /\
  (forall (self : PropCollection.t) (v : PropCollection.attr),
     (PropCollection.getattr builtin depth self attr = Ret v <->
      object_getattribute PropCollection.methods builtin PropCollection.FromClass
        (PropCollection.__dict__ self) attr = Some v) /\
     (class_lookup PropCollection.methods builtin attr = None ->
      (PropCollection.getattr builtin depth self attr = Ret v <->
       PropCollection.__dict__ self !! attr = Some v))).
Proof.
  split; intros self v.
  - assert (H : Scene.getattr builtin depth self attr = Ret v <->
                Scene.lookup builtin self attr = Some v)
      by apply (getattr_Ret_iff (Scene.lookup builtin)).
    split; [exact H |].
    intros Hc. rewrite H. unfold Scene.lookup, object_getattribute.
    rewrite Hc. reflexivity.
  - assert (H : PropCollection.getattr builtin depth self attr = Ret v <->
                PropCollection.lookup builtin self attr = Some v)
      by apply (getattr_Ret_iff (PropCollection.lookup builtin)).
    split; [exact H |].
    intros Hc. rewrite H. unfold PropCollection.lookup, object_getattribute.
    rewrite Hc. reflexivity.
Qed.

Lemma getattr_returns_what_lookup_finds_witness :
  Scene.getattr cpython_builtin recursion_limit new_Scene "meta" = Ret (Scene.Bytes "") /\
  Scene.getattr cpython_builtin recursion_limit new_Scene "__class__"
  = Ret (Scene.FromClass "__class__").
Proof.
  split.
  - apply (proj2 (proj2 (proj1 (getattr_returns_what_lookup_finds cpython_builtin
                                  recursion_limit "meta")
                           new_Scene (Scene.Bytes "")) eq_refl)).
    reflexivity.
  - apply (proj2 (proj1 (proj1 (getattr_returns_what_lookup_finds cpython_builtin
                                  recursion_limit "__class__")
                           new_Scene (Scene.FromClass "__class__")))).
    reflexivity.
Defined.

Lemma class_lookup_dunder (methods : list string) (builtin : builtin_names)
    (attr : string) :
  dunder_only builtin ->
  Forall (fun m => String.prefix "__" m = true) methods ->
  String.prefix "__" attr = false ->
  class_lookup methods builtin attr = None.
Proof.
  intros Hb Hm Ha. unfold class_lookup.
  destruct (existsb (String.eqb attr) methods) eqn:E.
  - apply existsb_exists in E. destruct E as [m [Hin Heq]].
    apply String.eqb_eq in Heq. subst m.
    rewrite Forall_forall in Hm. rewrite (Hm attr) in Ha; [discriminate |].
    apply list_elem_of_In. exact Hin.
  - destruct (builtin attr) eqn:Eb; [| reflexivity].
    rewrite (Hb attr) in Ha; [discriminate | congruence].
Qed.

Lemma Scene_methods_dunder :
  Forall (fun m => String.prefix "__" m = true) Scene.methods.
Proof. repeat constructor. Qed.

Lemma PropCollection_methods_dunder :
  Forall (fun m => String.prefix "__" m = true) PropCollection.methods.
Proof. repeat constructor. Qed.

(** X16. Given that the interpreter provides names that begin with two
    underscores only: a scene as [__init__] leaves it resolves its five
    fields, unsaved and not dirty; every other name that does not begin
    with two underscores, such as the [output] that the preview reads,
    ends in [RecursionError] until something is attached under it; and
    every name that the class provides resolves through the class.  A new
    property collection resolves [_values], empty, and no other name that
    does not begin with two underscores. *)
Theorem new_objects_resolve_fields_and_class_names
    (builtin : builtin_names) (depth : nat) (now : float) (date : string) :
  dunder_only builtin ->
  Scene.getattr builtin depth (Scene.__init__ now date) "meta" = Ret (Scene.Bytes "") /\
  Scene.getattr builtin depth (Scene.__init__ now date) "time" = Ret (Scene.Float now) /\
  Scene.getattr builtin depth (Scene.__init__ now date) "date" = Ret (Scene.Bytes date) /\
  Scene.getattr builtin depth (Scene.__init__ now date) "is_saved"
  = Ret (Scene.Bool false) /\
  Scene.getattr builtin depth (Scene.__init__ now date) "is_dirty"
  = Ret (Scene.Bool false) /\
  (forall attr : string,
     String.prefix "__" attr = false ->
     ~ In attr ["meta"; "time"; "date"; "is_saved"; "is_dirty"] ->
     Scene.getattr builtin depth (Scene.__init__ now date) attr = Raise RecursionError) /\
  (forall attr : string,
     class_lookup Scene.methods builtin attr <> None ->
     Scene.getattr builtin depth (Scene.__init__ now date) attr
     = Ret (Scene.FromClass attr)) /\
  PropCollection.getattr builtin depth PropCollection.__init__ "_values"
  = Ret (PropCollection.Values ∅) /\
  (forall attr : string,
     String.prefix "__" attr = false ->
     attr <> "_values" ->
     PropCollection.getattr builtin depth PropCollection.__init__ attr
     = Raise RecursionError).
Proof.
  intros Hb.
  assert (Hs : forall attr, String.prefix "__" attr = false ->
                 class_lookup Scene.methods builtin attr = None)
    by (intros attr; apply class_lookup_dunder; [exact Hb | exact Scene_methods_dunder]).
  assert (Hp : forall attr, String.prefix "__" attr = false ->
                 class_lookup PropCollection.methods builtin attr = None)
    by (intros attr; apply class_lookup_dunder;
        [exact Hb | exact PropCollection_methods_dunder]).
  assert (Hfield : forall attr v,
            String.prefix "__" attr = false ->
            Scene.__dict__ (Scene.__init__ now date) !! attr = Some v ->
            Scene.getattr builtin depth (Scene.__init__ now date) attr = Ret v).
  { intros attr v Ha Hv. apply (getattr_present (Scene.lookup builtin)).
    unfold Scene.lookup, object_getattribute. rewrite (Hs attr Ha). exact Hv. }
  repeat match goal with |- _ /\ _ => split end.
  - apply Hfield; reflexivity.
  - apply Hfield; reflexivity.
  - apply Hfield; reflexivity.
  - apply Hfield; reflexivity.
  - apply Hfield; reflexivity.
  - intros attr Ha Hnot.
    apply (getattr_absent (Scene.lookup builtin)).
    apply object_getattribute_None_iff. split; [| apply Hs; exact Ha].
    unfold Scene.__init__. simpl.
    rewrite !lookup_insert_ne; [apply lookup_empty | ..];
      intros <-; apply Hnot; simpl; auto 6.
  - intros attr Hc.
    apply (getattr_present (Scene.lookup builtin)).
    unfold Scene.lookup, object_getattribute.
    destruct (class_lookup Scene.methods builtin attr) as [[|] |] eqn:E;
      [reflexivity | | congruence].
    assert (Hd : String.prefix "__" attr = true).
    { destruct (String.prefix "__" attr) eqn:P; [reflexivity |].
      rewrite (Hs attr P) in E. discriminate. }
    assert (Hnone : Scene.__dict__ (Scene.__init__ now date) !! attr = None).
    { unfold Scene.__init__. simpl.
      rewrite !lookup_insert_ne; [apply lookup_empty | ..];
        intros <-; discriminate Hd. }
    rewrite Hnone. reflexivity.
  - apply (getattr_present (PropCollection.lookup builtin)).
    unfold PropCollection.lookup, object_getattribute.
    rewrite (Hp "_values" eq_refl). reflexivity.
  - intros attr Ha Hne.
    apply (getattr_absent (PropCollection.lookup builtin)).
    apply object_getattribute_None_iff. split; [| apply Hp; exact Ha].
    unfold PropCollection.__init__. simpl.
    apply lookup_singleton_ne. congruence.
Qed.

Lemma cpython_builtin_dunder_only : dunder_only cpython_builtin.
Proof.
  intros attr H. unfold cpython_builtin in H.
  destruct (existsb (String.eqb attr) ["__class__"; "__dict__"; "__weakref__"]) eqn:E1.
  - apply existsb_exists in E1. destruct E1 as [m [Hin Heq]].
    apply String.eqb_eq in Heq. subst m.
    repeat (destruct Hin as [<- | Hin]; [reflexivity |]). destruct Hin.
  - match type of H with
    | context [existsb ?f ?l] => destruct (existsb f l) eqn:E2
    end; [| congruence].
    apply existsb_exists in E2. destruct E2 as [m [Hin Heq]].
    apply String.eqb_eq in Heq. subst m.
    repeat (destruct Hin as [<- | Hin]; [reflexivity |]). destruct Hin.
Qed.

Lemma new_objects_resolve_fields_and_class_names_witness :
  Scene.getattr cpython_builtin recursion_limit new_Scene "output" = Raise RecursionError /\
  Scene.getattr cpython_builtin recursion_limit new_Scene "__doc__"
  = Ret (Scene.FromClass "__doc__") /\
  PropCollection.getattr cpython_builtin recursion_limit PropCollection.__init__ "x_res"
  = Raise RecursionError.
Proof.
  pose proof (new_objects_resolve_fields_and_class_names cpython_builtin recursion_limit
                0%float "2021-01-01 00-00-00" cpython_builtin_dunder_only) as H.
  refine (conj _ (conj _ _)).
  - apply (proj1 (proj2 (proj2 (proj2 (proj2 (proj2 H)))))).
    + reflexivity.
    + simpl. intros [E | [E | [E | [E | [E | []]]]]]; discriminate E.
  - apply (proj1 (proj2 (proj2 (proj2 (proj2 (proj2 (proj2 H))))))).
    discriminate.
  - apply (proj2 (proj2 (proj2 (proj2 (proj2 (proj2 (proj2 (proj2 H)))))))).
    + reflexivity.
    + discriminate.
Defined.

(** ** Keyboard shortcuts with modifiers *)

(** X17. [kmod] answers [True] exactly when the key is the wanted one and each
    of the three modifiers is wanted if and only if its left or its right
    key is held: a shortcut does not fire while a modifier it does not name
    is held, and either of the two keys of a modifier serves. *)
Theorem kmod_true_iff
    (K_LCTRL K_RCTRL K_LSHIFT K_RSHIFT K_LALT K_RALT : Z) (keys : Z -> bool)
    (key target_key : Z) (ctrl shift alt : bool) :
  kmod K_LCTRL K_RCTRL K_LSHIFT K_RSHIFT K_LALT K_RALT keys key target_key ctrl shift alt
  = true <->
  key = target_key /\
  ctrl = (keys K_LCTRL || keys K_RCTRL) /\
  shift = (keys K_LSHIFT || keys K_RSHIFT) /\
  alt = (keys K_LALT || keys K_RALT).
Proof.
  unfold kmod.
  destruct (Z.eqb_spec key target_key) as [Hk | Hk];
    destruct ctrl, shift, alt,
      (keys K_LCTRL), (keys K_RCTRL), (keys K_LSHIFT), (keys K_RSHIFT),
      (keys K_LALT), (keys K_RALT); simpl;
    (split; [try discriminate; intros _; repeat split; assumption
            | intros (Hkey & Hc & Hs & Ha);
              try discriminate; try contradiction; reflexivity]).
Qed.

(** ** Loading plugin modules *)

Section LoaderFacts.
Context {U : Type}.
Variable isdir : string -> bool.
Variable listdir : string -> list string.
Variable splitext : string -> string * string.
Variable import_module :
  list string -> string -> U -> list string * U * result (@register_py.pymodule U).

Local Abbreviation import_and_register :=
  (register_py.import_and_register splitext import_module).
Local Abbreviation register_module :=
  (register_py.register_module splitext import_module).
Local Abbreviation for_files := (register_py.for_files splitext import_module).
Local Abbreviation register :=
  (register_py.register isdir listdir splitext import_module).
Local Abbreviation module_names := (register_py.module_names listdir splitext).
Local Abbreviation interp := (@register_py.interp U).
Local Abbreviation keeps_sys_path := (register_py.keeps_sys_path import_module).
Local Abbreviation keeps_sys_path_nonempty :=
  (register_py.keeps_sys_path_nonempty import_module).
Local Abbreviation every_module_registers :=
  (register_py.every_module_registers import_module).

Lemma register_module_fst (file : string) (st : interp) :
  fst (register_module file st) = fst (import_and_register file st).
Proof.
  unfold register_py.register_module.
  destruct (import_and_register file st) as [st' [[] | [m | | | m]]]; reflexivity.
Qed.

Lemma list_pop_app {A : Type} (l : list A) (x : A) :
  list_pop (l ++ [x])%list = Ret l.
Proof.
  unfold list_pop. rewrite removelast_last.
  destruct l; reflexivity.
Qed.

Lemma list_pop_nonempty {A : Type} (l : list A) :
  l <> [] -> list_pop l = Ret (removelast l).
Proof. destruct l; [congruence | reflexivity]. Qed.

(** One directory of the loop of [register]. *)
Lemma register_step (d : string) (dirs : list string) (st : interp) :
  isdir d = true ->
  register (d :: dirs) st =
  match for_files (listdir d)
          (register_py.mkInterp (register_py.sys_path st ++ [d])%list
             (register_py.user st) (register_py.registered st)) with
  | (st2, Raise e) => (st2, Raise e)
  | (st2, Ret _) =>
      match list_pop (register_py.sys_path st2) with
      | Raise e => (st2, Raise e)
      | Ret p =>
          register dirs
            (register_py.mkInterp p (register_py.user st2) (register_py.registered st2))
      end
  end.
Proof. intros Hd. simpl. rewrite Hd. reflexivity. Qed.

(** X18. [register_module] lets no [AttributeError] out, whether it comes
    from the import, from a module without [register], or from inside the
    module's [register()]; in the last case the module counts as loaded
    although its [register()] did not finish, and what it had done so far
    stays done. *)
Theorem register_module_swallows_AttributeError (file : string) (st : interp) :
  (forall msg, snd (register_module file st) <> Raise (AttributeError msg)) /\
  (forall (p : list string) (u : U) (m : register_py.pymodule)
          (f : list string -> U -> list string * U * result unit) (msg : string),
     import_module (register_py.sys_path st) (fst (splitext file)) (register_py.user st)
     = (p, u, Ret m) ->
     register_py.register_attr m = Some f ->
     snd (f p u) = Raise (AttributeError msg) ->
     register_module file st =
     (register_py.mkInterp (fst (fst (f p u))) (snd (fst (f p u)))
        (register_py.registered st ++ [fst (splitext file)])%list,
      Ret tt)).
Proof.
  split.
  - intros msg. unfold register_py.register_module.
    destruct (import_and_register file st) as [st' [[] | [m | | | m]]];
      simpl; discriminate.
  - intros p u m f msg Himp Hattr Hf.
    unfold register_py.register_module, register_py.import_and_register.
    rewrite Himp, Hattr. destruct (f p u) as [[p' u'] r]. simpl in *. rewrite Hf.
    reflexivity.
Qed.

(** Module code that leaves [sys.path] alone: loading files leaves it
    alone. *)
Lemma import_and_register_sys_path (file : string) (st : interp) :
  keeps_sys_path ->
  register_py.sys_path (fst (import_and_register file st)) = register_py.sys_path st.
Proof.
  intros Hk. unfold register_py.import_and_register.
  destruct (Hk (register_py.sys_path st) (fst (splitext file)) (register_py.user st))
    as [Himp Hreg].
  destruct (import_module _ _ _) as [[p u] [m | e]]; simpl in *; [| exact Himp].
  destruct (register_py.register_attr m) as [f |] eqn:Hattr; [| exact Himp].
  specialize (Hreg m f eq_refl Hattr p u).
  destruct (f p u) as [[p' u'] r]. simpl in *. congruence.
Qed.

Lemma for_files_sys_path (files : list string) (st : interp) :
  keeps_sys_path ->
  register_py.sys_path (fst (for_files files st)) = register_py.sys_path st.
Proof.
  intros Hk. revert st. induction files as [| f files IH]; intros st; simpl;
    [reflexivity |].
  pose proof (import_and_register_sys_path f st Hk) as Hf.
  rewrite <- register_module_fst in Hf.
  destruct (register_module f st) as [st' [[] | e]]; simpl in *.
  - rewrite IH. exact Hf.
  - exact Hf.
Qed.

(** X19. When the modules leave [sys.path] as they find it and [register]
    returns, [sys.path] is what it was before: every directory put on it
    has been taken off again. *)
Theorem register_restores_sys_path (dirs : list string) (st : interp) :
  keeps_sys_path ->
  snd (register dirs st) = Ret tt ->
  register_py.sys_path (fst (register dirs st)) = register_py.sys_path st.
Proof.
  intros Hk. revert st. induction dirs as [| d dirs IH]; intros st; [reflexivity |].
  destruct (isdir d) eqn:Hd.
  - rewrite (register_step d dirs st Hd).
    pose proof (for_files_sys_path (listdir d)
                  (register_py.mkInterp (register_py.sys_path st ++ [d])%list
                     (register_py.user st) (register_py.registered st)) Hk) as Hp.
    destruct (for_files _ _) as [st2 [[] | e]]; simpl in *; [| discriminate].
    rewrite Hp, list_pop_app.
    intros H. rewrite (IH _ H). reflexivity.
  - simpl. rewrite Hd. apply IH.
Qed.

(** X20. When the modules leave [sys.path] as they find it and an
    exception leaves [register], the directory that was being scanned is
    still the last entry of [sys.path]: the [pop] is skipped. *)
Theorem register_exception_leaves_directory_on_sys_path
    (dirs : list string) (st : interp) (e : exn) :
  keeps_sys_path ->
  snd (register dirs st) = Raise e ->
  exists d,
    In d dirs /\ isdir d = true /\
    register_py.sys_path (fst (register dirs st)) = (register_py.sys_path st ++ [d])%list.
Proof.
  intros Hk. revert st. induction dirs as [| d dirs IH]; intros st; [discriminate |].
  destruct (isdir d) eqn:Hd.
  - rewrite (register_step d dirs st Hd).
    pose proof (for_files_sys_path (listdir d)
                  (register_py.mkInterp (register_py.sys_path st ++ [d])%list
                     (register_py.user st) (register_py.registered st)) Hk) as Hp.
    destruct (for_files _ _) as [st2 [[] | e']]; simpl in *.
    + rewrite Hp, list_pop_app.
      intros H. destruct (IH _ H) as [d' [Hin [Hd' Hpath]]].
      exists d'. split; [right; exact Hin | split; [exact Hd' | exact Hpath]].
    + intros _. exists d. split; [left; reflexivity | split; [exact Hd | exact Hp]].
  - simpl. rewrite Hd. intros H. destruct (IH _ H) as [d' [Hin [Hd' Hpath]]].
    exists d'. split; [right; exact Hin | split; [exact Hd' | exact Hpath]].
Qed.

(** X21. Entries of the list that are not directories are passed over: a
    list without any directory changes nothing and raises nothing. *)
Theorem register_skips_non_directories (dirs : list string) (st : interp) :
  (forall d, In d dirs -> isdir d = false) ->
  register dirs st = (st, Ret tt).
Proof.
  induction dirs as [| d dirs IH]; intros H; simpl; [reflexivity |].
  rewrite (H d (or_introl eq_refl)). apply IH.
  intros d' Hd'. apply H. right. exact Hd'.
Qed.

(** X22. Loading a list of directories is loading its front part and then,
    if that returned, its rest. *)
Theorem register_app (dirs1 dirs2 : list string) (st : interp) :
  register (dirs1 ++ dirs2)%list st =
  match register dirs1 st with
  | (st', Ret _) => register dirs2 st'
  | (st', Raise e) => (st', Raise e)
  end.
Proof.
  revert st. induction dirs1 as [| d dirs1 IH]; intros st; [reflexivity |].
  destruct (isdir d) eqn:Hd.
  - change ((d :: dirs1) ++ dirs2)%list with (d :: (dirs1 ++ dirs2))%list.
    rewrite !(register_step d _ st Hd).
    destruct (for_files _ _) as [st2 [[] | e]]; [| reflexivity].
    destruct (list_pop (register_py.sys_path st2)) as [p | e]; [apply IH | reflexivity].
  - simpl. rewrite Hd. apply IH.
Qed.

Lemma register_module_registered (file : string) (st : interp) :
  register_py.registered (fst (register_module file st)) = register_py.registered st \/
  register_py.registered (fst (register_module file st))
  = (register_py.registered st ++ [fst (splitext file)])%list.
Proof.
  rewrite register_module_fst. unfold register_py.import_and_register.
  destruct (import_module _ _ _) as [[p u] [m | e]]; [| left; reflexivity].
  destruct (register_py.register_attr m) as [f |]; [| left; reflexivity].
  destruct (f p u) as [[p' u'] r]. right. reflexivity.
Qed.

Lemma for_files_registered (files : list string) (st : interp) :
  exists l,
    register_py.registered (fst (for_files files st))
    = (register_py.registered st ++ l)%list /\
    l `sublist_of` map (fun f => fst (splitext f)) files.
Proof.
  revert st. induction files as [| f files IH]; intros st; simpl.
  - exists []. split; [symmetry; apply app_nil_r | constructor].
  - pose proof (register_module_registered f st) as Hf.
    destruct (register_module f st) as [st' [[] | e]]; simpl in Hf.
    + destruct (IH st') as [l [Hl Hsub]]. rewrite Hl.
      destruct Hf as [-> | ->].
      * exists l. split; [reflexivity | apply sublist_cons; exact Hsub].
      * exists (fst (splitext f) :: l). split.
        -- rewrite <- app_assoc. reflexivity.
        -- apply sublist_skip. exact Hsub.
    + simpl. destruct Hf as [-> | ->].
      * exists []. split; [symmetry; apply app_nil_r | apply sublist_nil_l].
      * exists [fst (splitext f)]. split; [reflexivity |].
        apply sublist_skip. apply sublist_nil_l.
Qed.

(** X23. The [register()] functions are entered in the order of the
    directory list and, within a directory, of its listing; each file
    accounts for at most one entry, and only files of directories are
    looked at. *)
Theorem register_enters_in_listing_order (dirs : list string) (st : interp) :
  exists l,
    register_py.registered (fst (register dirs st))
    = (register_py.registered st ++ l)%list /\
    l `sublist_of` concat (map module_names (filter (fun d => isdir d = true) dirs)).
Proof.
  revert st. induction dirs as [| d dirs IH]; intros st.
  - exists []. split; [symmetry; apply app_nil_r | constructor].
  - destruct (isdir d) eqn:Hd.
    + rewrite (register_step d dirs st Hd).
      rewrite filter_cons_True by exact Hd. simpl.
      destruct (for_files_registered (listdir d)
                  (register_py.mkInterp (register_py.sys_path st ++ [d])%list
                     (register_py.user st) (register_py.registered st)))
        as [l1 [Hl1 Hsub1]]. simpl in Hl1.
      destruct (for_files _ _) as [st2 [[] | e]]; simpl in Hl1.
      * destruct (list_pop (register_py.sys_path st2)) as [p | e].
        -- destruct (IH (register_py.mkInterp p (register_py.user st2)
                           (register_py.registered st2))) as [l2 [Hl2 Hsub2]].
           rewrite Hl2. simpl. rewrite Hl1.
           exists (l1 ++ l2)%list. split; [rewrite app_assoc; reflexivity |].
           apply sublist_app; assumption.
        -- simpl. exists l1. split; [exact Hl1 |].
           apply sublist_inserts_r. exact Hsub1.
      * simpl. exists l1. split; [exact Hl1 |].
        apply sublist_inserts_r. exact Hsub1.
    + simpl register_py.register. rewrite Hd.
      rewrite filter_cons_False by (rewrite Hd; discriminate).
      apply IH.
Qed.

Lemma for_files_all_registered (files : list string) (st : interp) :
  every_module_registers ->
  keeps_sys_path_nonempty ->
  register_py.sys_path st <> [] ->
  snd (for_files files st) = Ret tt /\
  register_py.sys_path (fst (for_files files st)) <> [] /\
  register_py.registered (fst (for_files files st))
  = (register_py.registered st ++ map (fun f => fst (splitext f)) files)%list.
Proof.
  intros Hall Hne. revert st. induction files as [| f files IH]; intros st Hst; simpl.
  - split; [reflexivity | split; [exact Hst | symmetry; apply app_nil_r]].
  - unfold register_py.register_module, register_py.import_and_register.
    destruct (Hall (register_py.sys_path st) (fst (splitext f)) (register_py.user st))
      as [g [Himp Hg]].
    destruct (Hne (register_py.sys_path st) (fst (splitext f)) (register_py.user st))
      as [Hp Hq].
    destruct (import_module _ _ _) as [[p u] r]. simpl in Himp, Hp, Hq. subst r.
    simpl.
    specialize (Hg p u). specialize (Hq _ g eq_refl eq_refl p u (Hp Hst)).
    destruct (g p u) as [[p' u'] r]. simpl in Hg, Hq. subst r.
    destruct (IH (register_py.mkInterp p' u'
                    (register_py.registered st ++ [fst (splitext f)])%list) Hq)
      as [Hret [Hpath Hreg]].
    split; [exact Hret | split; [exact Hpath |]].
    rewrite Hreg. simpl. rewrite <- app_assoc. reflexivity.
Qed.

End LoaderFacts.

Lemma sample_import_module_keeps_sys_path :
  register_py.keeps_sys_path sample_import_module.
Proof.
  intros path name u. unfold sample_import_module.
  repeat match goal with
    | |- context [String.eqb name ?s] => destruct (String.eqb name s)
    end; simpl;
    (split; [reflexivity |]);
    intros m f Hm Hf path' u'; inversion Hm; subst m; simpl in Hf;
    inversion Hf; subst f; reflexivity.
Qed.

Lemma tidy_import_module_every_module_registers :
  register_py.every_module_registers tidy_import_module.
Proof.
  intros path name u. eexists. split; [reflexivity |]. intros path' u'. reflexivity.
Qed.

Lemma tidy_import_module_keeps_sys_path_nonempty :
  register_py.keeps_sys_path_nonempty tidy_import_module.
Proof.
  intros path name u. split; [intros H; exact H |].
  intros m f Hm Hf path' u' H. unfold tidy_import_module in Hm. simpl in Hm.
  inversion Hm; subst m. simpl in Hf. inversion Hf; subst f. exact H.
Qed.

Lemma register_module_swallows_AttributeError_witness :
  register_py.register_module sample_splitext sample_import_module "broken.py" sample_interp
  = (register_py.mkInterp ["/usr/lib/python3"] ["render.half"] ["broken"], Ret tt).
Proof.
  exact (proj2 (register_module_swallows_AttributeError sample_splitext sample_import_module
                  "broken.py" sample_interp)
           ["/usr/lib/python3"] [] _ _ "module vpy has no attribute utils"
           eq_refl eq_refl eq_refl).
Defined.

Lemma register_restores_sys_path_witness :
  register_py.sys_path
    (fst (register_py.register sample_isdir sample_listdir sample_splitext
            sample_import_module ["plugins"; "missing"] sample_interp))
  = ["/usr/lib/python3"].
Proof.
  apply (register_restores_sys_path sample_isdir sample_listdir sample_splitext
           sample_import_module ["plugins"; "missing"] sample_interp
           sample_import_module_keeps_sys_path).
  vm_compute. reflexivity.
Defined.

Lemma register_exception_leaves_directory_on_sys_path_witness :
  exists d,
    In d ["plugins"; "addons"] /\ sample_isdir d = true /\
    register_py.sys_path
      (fst (register_py.register sample_isdir sample_listdir sample_splitext
              sample_import_module ["plugins"; "addons"] sample_interp))
    = (["/usr/lib/python3"] ++ [d])%list.
Proof.
  apply (register_exception_leaves_directory_on_sys_path sample_isdir sample_listdir
           sample_splitext sample_import_module ["plugins"; "addons"] sample_interp
           (Fault "No module named notes") sample_import_module_keeps_sys_path).
  vm_compute. reflexivity.
Defined.

Lemma register_skips_non_directories_witness :
  register_py.register sample_isdir sample_listdir sample_splitext sample_import_module
    ["missing"; "plugins.zip"] sample_interp
  = (sample_interp, Ret tt).
Proof.
  apply (register_skips_non_directories sample_isdir sample_listdir sample_splitext
           sample_import_module ["missing"; "plugins.zip"] sample_interp).
  intros d [<- | [<- | []]]; reflexivity.
Defined.


(** What the sample installation does: the half-done registration of
    [broken] is kept and passed over, and the missing module [notes] stops
    the loading before [fade] is reached. *)
Example register_sample_installation :
  register_py.register sample_isdir sample_listdir sample_splitext sample_import_module
    ["plugins"; "addons"] sample_interp
  = (register_py.mkInterp ["/usr/lib/python3"; "addons"]
       ["render.blur"; "render.half"] ["blur"; "broken"],
     Raise (Fault "No module named notes")).
Proof. vm_compute. reflexivity. Qed.

(** Without the condition of X19: [pop] removes whatever is last, so when a
    module's [register()] appends an entry of its own to [sys.path], that
    entry is taken off and the scanned directory stays on. *)
Example register_pop_takes_the_last_entry :
  register_py.register sample_isdir sample_listdir sample_splitext vendoring_import_module
    ["addons"] sample_interp
  = (register_py.mkInterp ["/usr/lib/python3"; "addons"; "vendor"] [] ["notes"; "fade"],
     Ret tt).
Proof. vm_compute. reflexivity. Qed.
